(** * ReviewScraper: a shallow embedding of [review_scraper.py]

    The scraper is a Python class with four fields ([base_url], [headers],
    [reviews], [errors]) whose methods talk to the network, the clock, the
    console and the file system.  The embedding threads the instance and
    the outside world through a small state-and-exception monad, keeps
    Python dictionaries as association lists in insertion order, and keeps
    a parsed page as a rose tree of tags and text nodes.

    Text is [string]: a sequence of code points below 256. *)

From Stdlib Require Import List String Ascii Bool Arith PeanoNat Lia.
From Stdlib Require Import QArith DecimalString.
Import ListNotations.

#[local] Set Warnings "-register-all".

Close Scope Q_scope.
Open Scope list_scope.
Open Scope string_scope.

(** ** Text helpers *)

Module Text.

(** [str.isspace] on one code point (range below 256): TAB..CR, FS..US,
    SPACE, NEL and NBSP. *)
Definition isspace (c : ascii) : bool :=
  let n := nat_of_ascii c in
  (((9 <=? n) && (n <=? 13)) || ((28 <=? n) && (n <=? 32))
   || (n =? 133) || (n =? 160))%nat.

Fixpoint lstrip_chars (l : list ascii) : list ascii :=
  match l with
  | c :: r => if isspace c then lstrip_chars r else l
  | [] => []
  end.

(** [str.strip()] with no argument. *)
Definition strip (s : string) : string :=
  string_of_list_ascii
    (rev (lstrip_chars (rev (lstrip_chars (list_ascii_of_string s))))).

(** [str(n)] for a non-negative integer. *)
Definition str_of_nat (n : nat) : string :=
  NilEmpty.string_of_uint (Nat.to_uint n).

(** [sep.join(parts)] *)
Definition join (sep : string) (parts : list string) : string :=
  String.concat sep parts.

(** The double quote character. *)
Definition dquote : ascii := "034"%char.
Definition LF : ascii := "010"%char.
Definition CR : ascii := "013"%char.

End Text.

(** ** Python dictionaries with string keys, in insertion order *)

Module Dict.

Definition t (V : Type) : Type := list (string * V).

Definition keys {V} (d : t V) : list string := map fst d.
Definition values {V} (d : t V) : list V := map snd d.

(** [d.get(k)] *)
Fixpoint get {V} (d : t V) (k : string) : option V :=
  match d with
  | [] => None
  | (k', v) :: r => if String.eqb k' k then Some v else get r k
  end.

(** [d[k] = v]: an existing key keeps its position. *)
Fixpoint set {V} (d : t V) (k : string) (v : V) : t V :=
  match d with
  | [] => [(k, v)]
  | (k', v') :: r =>
      if String.eqb k' k then (k', v) :: r else (k', v') :: set r k v
  end.


(** The representation invariant: a dictionary holds each key once. *)
Definition wf {V} (d : t V) : Prop := NoDup (keys d).

End Dict.

(** ** Parsed documents (the part of bs4 the scraper uses) *)

(** A page element is a text node or a tag with its name, the value of its
    [class] attribute (a list, as bs4 splits it) and its children. *)
Inductive PageElement : Type :=
| NavigableString (s : string)
| Tag (name : string) (classes : list string) (contents : list PageElement).

(** [tag.descendants]: every node below [e], in document order. *)
Fixpoint descendants (e : PageElement) : list PageElement :=
  match e with
  | NavigableString _ => []
  | Tag _ _ cs => flat_map (fun c => c :: descendants c) cs
  end.

(** Does [e] match [find(name, class_=cls)]?  A multi-valued [class]
    matches when one of its values is [cls]. *)
Definition matches (name cls : string) (e : PageElement) : bool :=
  match e with
  | NavigableString _ => false
  | Tag n classes _ =>
      String.eqb n name && existsb (String.eqb cls) classes
  end.

(** [tag.find_all(name, class_=cls)] *)
Definition find_all (e : PageElement) (name cls : string) : list PageElement :=
  filter (matches name cls) (descendants e).

(** [tag.find(name, class_=cls)]: the first match or [None]. *)
Definition find (e : PageElement) (name cls : string) : option PageElement :=
  hd_error (find_all e name cls).

Definition string_of (e : PageElement) : string :=
  match e with
  | NavigableString s => s
  | Tag _ _ _ => ""
  end.

(** [tag.text]: the text nodes below the tag, concatenated. *)
Definition text (e : PageElement) : string :=
  match e with
  | NavigableString s => s
  | Tag _ _ _ => String.concat "" (map string_of (descendants e))
  end.

(** ** Exceptions and results *)

(** The exception classes the code meets.  [RequestException] stands for
    the class and its subclasses ([HTTPError], [ConnectionError],
    [Timeout], ...), which the handler of [fetch_page] does not tell apart.
    [LocationParseError] (urllib3) and [ParserRejectedMarkup] (bs4) are
    what [requests.get] and the parser raise outside that class;
    [OverflowError] comes from [time.sleep]. *)
Inductive exn : Type :=
| RequestException (msg : string)
| AttributeError (msg : string)
| ValueError (msg : string)
| OSError (msg : string)
| OverflowError (msg : string)
| LocationParseError (msg : string)
| ParserRejectedMarkup (msg : string).

(** [str(e)] *)
Definition str_exn (e : exn) : string :=
  match e with
  | RequestException m | AttributeError m | ValueError m | OSError m
  | OverflowError m | LocationParseError m | ParserRejectedMarkup m => m
  end.

Definition is_RequestException (e : exn) : bool :=
  match e with RequestException _ => true | _ => false end.

Definition is_AttributeError (e : exn) : bool :=
  match e with AttributeError _ => true | _ => false end.

(** [except Exception] catches every class above. *)
Definition is_Exception (e : exn) : bool := true.

Inductive result (A : Type) : Type :=
| Ok (a : A)
| Raise (e : exn).
Arguments Ok {A} a.
Arguments Raise {A} e.

(** ** The scraper instance and the outside world *)

Definition Review : Type := Dict.t string.
Definition Headers : Type := Dict.t string.

Record ReviewScraper : Type := mkScraper {
  base_url : string;
  headers : Headers;
  reviews : list Review;
  errors : list string
}.

(** What [requests.get] hands back. *)
Record Response : Type := mkResponse {
  status_code : nat;
  reason : string;
  url : string;
  content : string
}.

(** [requests.get] returns a response, raises a [RequestException]
    with a message, or raises something else: a URL such as
    [http://a..b/] gets urllib3's [LocationParseError], which is not a
    [RequestException]. *)
Inductive http_outcome : Type :=
| ConnFail (cause : string)
| Responded (r : Response)
| GetRaised (e : exn).

(** Observable effects, in the order they happen. *)
Inductive event : Type :=
| EvPrint (line : string)
| EvGet (url : string) (hdrs : Headers) (timeout : nat)
| EvSleep (secs : Q)
| EvOpen (filename : string)
| EvNow.

Record World : Type := mkWorld {
  trace : list event;
  files : list (string * string)
}.

(** The environment answers what the program cannot decide itself.  Each
    oracle takes the logical time (the number of effects so far), so the
    same URL or file name may behave differently from call to call.
    The parser either builds a document or raises (bs4 turns a body such
    as [<![ x] into [ParserRejectedMarkup]); the operating system may
    refuse a pause that [time.sleep] itself accepts ([os_sleep] gives the
    message of the [OSError]). *)
Record Env : Type := mkEnv {
  http : nat -> string -> Headers -> http_outcome;
  html_parser : string -> result PageElement;
  open_w : nat -> string -> option string;
  now_isoformat : nat -> string;
  repr_fields : list string -> string;
  os_sleep : nat -> Q -> option string
}.

Definition now (w : World) : nat := List.length (trace w).

Definition log (e : event) (w : World) : World :=
  mkWorld (trace w ++ [e]) (files w).

(** Newest binding first; [read_file] finds the current content. *)
Definition write_file (name data : string) (w : World) : World :=
  mkWorld (trace w) ((name, data) :: files w).

Definition read_file (w : World) (name : string) : option string :=
  Dict.get (files w) name.

(** ** The monad: instance state, world, and exceptions *)

Definition M (A : Type) : Type :=
  ReviewScraper -> World -> result A * ReviewScraper * World.

Definition ret {A} (a : A) : M A := fun st w => (Ok a, st, w).

Definition raise {A} (e : exn) : M A := fun st w => (Raise e, st, w).

Definition bind {A B} (m : M A) (k : A -> M B) : M B :=
  fun st w =>
    match m st w with
    | (Ok a, st', w') => k a st' w'
    | (Raise e, st', w') => (Raise e, st', w')
    end.

Notation "x <- m ;; k" := (bind m (fun x => k))
  (at level 61, m at next level, right associativity).
Notation "m ;;; k" := (bind m (fun _ => k))
  (at level 61, right associativity).

(** [try: body  except C as e: handler e] — state changes made by the
    body before it raised are kept. *)
Definition try_except {A} (body : M A) (catches : exn -> bool)
    (handler : exn -> M A) : M A :=
  fun st w =>
    match body st w with
    | (Raise e, st', w') =>
        if catches e then handler e st' w' else (Raise e, st', w')
    | r => r
    end.

(** [self.errors.append(msg)] *)
Definition push_errors (st : ReviewScraper) (msgs : list string)
    : ReviewScraper :=
  mkScraper (base_url st) (headers st) (reviews st) (errors st ++ msgs).

Definition errors_append (msg : string) : M unit :=
  fun st w => (Ok tt, push_errors st [msg], w).

(** [self.reviews = rs] *)
Definition with_reviews (st : ReviewScraper) (rs : list Review)
    : ReviewScraper :=
  mkScraper (base_url st) (headers st) rs (errors st).

Definition set_reviews (rs : list Review) : M unit :=
  fun st w => (Ok tt, with_reviews st rs, w).

Definition get_self : M ReviewScraper := fun st w => (Ok st, st, w).

Definition print (line : string) : M unit :=
  fun st w => (Ok tt, st, log (EvPrint line) w).

(** What [time.sleep(secs)] raises before it asks the operating system
    (CPython 3.11, float argument).  The product [secs * 1e9] is rounded
    to the nearest double [d]: [d] is above [2^63] exactly when the
    product is above [2^63 + 1024], below [-2^63] exactly when it is
    below [-2^63 - 1024], and these are an [OverflowError].  Otherwise
    [d] becomes a 64-bit count of nanoseconds, and a negative count is a
    [ValueError]; [d = 2^63], that is a product from [2^63 - 512] up,
    wraps to the most negative count. *)
Definition sleep_raises (secs : Q) : option exn :=
  let p := (secs * inject_Z (10 ^ 9))%Q in
  if negb (Qle_bool (inject_Z (- 2 ^ 63 - 1024)) p)
     || negb (Qle_bool p (inject_Z (2 ^ 63 + 1024)))
  then Some (OverflowError "timestamp too large to convert to C _PyTime_t")
  else if negb (Qle_bool 0 p) || Qle_bool (inject_Z (2 ^ 63 - 512)) p
  then Some (ValueError "sleep length must be non-negative")
  else None.

(** ** Construction *)

Definition default_headers : Headers :=
  [("User-Agent",
    "Mozilla/5.0 (Windows NT 10.0; Win64; x64) AppleWebKit/537.36")].

(** [__init__]: [headers or {...}] takes the default for [None] and for
    an empty mapping. *)
Definition init (base : string) (hdrs : option Headers) : ReviewScraper :=
  mkScraper base
    (match hdrs with
     | Some (h :: t) => h :: t
     | _ => default_headers
     end)
    [] [].

(** ** The csv module: [csv.DictWriter] with the default (excel) dialect *)

Module Csv.

(** A field is quoted (QUOTE_MINIMAL) when it holds the delimiter, the
    quote character or a character of the line terminator. *)
Definition special (c : ascii) : bool :=
  Ascii.eqb c ","%char || Ascii.eqb c Text.dquote
  || Ascii.eqb c Text.CR || Ascii.eqb c Text.LF.

Fixpoint needs_quotes (s : string) : bool :=
  match s with
  | EmptyString => false
  | String c r => special c || needs_quotes r
  end.

(** [doublequote=True]: a quote inside a field is written twice. *)
Fixpoint double_quotes (s : string) : string :=
  match s with
  | EmptyString => EmptyString
  | String c r =>
      if Ascii.eqb c Text.dquote
      then String Text.dquote (String Text.dquote (double_quotes r))
      else String c (double_quotes r)
  end.

Definition field (s : string) : string :=
  if needs_quotes s
  then String Text.dquote (double_quotes s ++ String Text.dquote EmptyString)
  else s.

Definition lineterminator : string :=
  String Text.CR (String Text.LF EmptyString).

(** [writer.writerow(fields)]: a row made of one empty field is written
    as a pair of quotes. *)
Definition row (fields : list string) : string :=
  match fields with
  | [f] =>
      if String.eqb f ""
      then String Text.dquote (String Text.dquote lineterminator)
      else field f ++ lineterminator
  | _ => Text.join "," (map field fields) ++ lineterminator
  end.

(** [DictWriter._dict_to_list] with [extrasaction='raise'] and
    [restval='']: a key outside [fieldnames] is an error, a missing key
    gives an empty field.  [repr] renders the offending keys. *)
Definition dict_to_list (repr : list string -> string)
    (fieldnames : list string) (rowdict : Dict.t string)
    : result (list string) :=
  match filter (fun k => negb (existsb (String.eqb k) fieldnames))
               (Dict.keys rowdict) with
  | [] =>
      Ok (map (fun k => match Dict.get rowdict k with
                        | Some v => v
                        | None => ""
                        end) fieldnames)
  | wrong =>
      Raise (ValueError
               ("dict contains fields not in fieldnames: " ++ repr wrong))
  end.

(** [DictWriter.writeheader]: the row of the field names themselves. *)
Definition writeheader (fieldnames : list string) : string :=
  row fieldnames.

(** [DictWriter.writerows]: rows are converted and written one by one, so
    the rows before a bad one are already in the file when it raises.
    Returns the outcome and the text written. *)
Fixpoint writerows (repr : list string -> string)
    (fieldnames : list string) (rowdicts : list (Dict.t string))
    : result unit * string :=
  match rowdicts with
  | [] => (Ok tt, "")
  | d :: rest =>
      match dict_to_list repr fieldnames d with
      | Raise e => (Raise e, "")
      | Ok fields =>
          let '(res, out) := writerows repr fieldnames rest in
          (res, row fields ++ out)
      end
  end.

(** *** Reading ([csv.reader], default dialect, not strict, on the
        text of a file opened with [newline=''], the field size limit
        lifted)

    The reader is a state machine over the characters, line by line; a
    line ends after a line feed, or after a carriage return that no
    line feed follows, and the reader is told so ([end_of_line]).  A
    record is complete when a line ends in the state [StartRecord]. *)
Inductive rstate : Type :=
| StartRecord
| StartField
| InField
| InQuotedField
| QuoteInQuotedField
| EatCRNL.

Definition is_newline (c : ascii) : bool :=
  Ascii.eqb c Text.CR || Ascii.eqb c Text.LF.

Definition save_field (field : list ascii) (fields : list string)
    : list string :=
  string_of_list_ascii (rev field) :: fields.

(** One character; [field] holds the characters of the current field,
    newest first, [fields] the fields of the current record, newest
    first.  [None] is the reader's [Error]. *)
Definition step (c : ascii) (state : rstate) (field : list ascii)
    (fields : list string) : option (rstate * list ascii * list string) :=
  match state with
  | StartRecord | StartField =>
      if is_newline c then
        match state with
        | StartRecord => Some (EatCRNL, field, fields)
        | _ => Some (EatCRNL, [], save_field field fields)
        end
      else if Ascii.eqb c Text.dquote then
        Some (InQuotedField, field, fields)
      else if Ascii.eqb c ","%char then
        Some (StartField, [], save_field field fields)
      else Some (InField, c :: field, fields)
  | InField =>
      if is_newline c then Some (EatCRNL, [], save_field field fields)
      else if Ascii.eqb c ","%char then
        Some (StartField, [], save_field field fields)
      else Some (InField, c :: field, fields)
  | InQuotedField =>
      if Ascii.eqb c Text.dquote then
        Some (QuoteInQuotedField, field, fields)
      else Some (InQuotedField, c :: field, fields)
  | QuoteInQuotedField =>
      if Ascii.eqb c Text.dquote then
        Some (InQuotedField, c :: field, fields)
      else if Ascii.eqb c ","%char then
        Some (StartField, [], save_field field fields)
      else if is_newline c then
        Some (EatCRNL, [], save_field field fields)
      else Some (InField, c :: field, fields)
  | EatCRNL =>
      if is_newline c then Some (EatCRNL, field, fields) else None
  end.

Definition end_of_line (state : rstate) (field : list ascii)
    (fields : list string) : rstate * list ascii * list string :=
  match state with
  | StartRecord => (StartRecord, field, fields)
  | StartField | InField | QuoteInQuotedField =>
      (StartRecord, [], save_field field fields)
  | InQuotedField => (InQuotedField, field, fields)
  | EatCRNL => (StartRecord, field, fields)
  end.

(** Does a line end after [c], the text going on with [rest]? *)
Definition ends_line (c : ascii) (rest : string) : bool :=
  Ascii.eqb c Text.LF
  || (Ascii.eqb c Text.CR
      && match rest with
         | String c' _ => negb (Ascii.eqb c' Text.LF)
         | EmptyString => true
         end).

(** The records read from [s]; [records] holds the complete ones,
    newest first.  When the text runs out inside a record, what was read
    of it is returned as the last record. *)
Fixpoint read_from (s : string) (state : rstate) (field : list ascii)
    (fields : list string) (records : list (list string))
    : option (list (list string)) :=
  match s with
  | EmptyString =>
      match state with
      | StartRecord => Some (rev records)
      | _ => Some (rev (rev (save_field field fields) :: records))
      end
  | String c r =>
      match step c state field fields with
      | None => None
      | Some (state1, field1, fields1) =>
          if ends_line c r then
            match end_of_line state1 field1 fields1 with
            | (StartRecord, _, fields2) =>
                read_from r StartRecord [] [] (rev fields2 :: records)
            | (state2, field2, fields2) =>
                read_from r state2 field2 fields2 records
            end
          else read_from r state1 field1 fields1 records
      end
  end.

(** [list(csv.reader(f))] *)
Definition reader (text : string) : option (list (list string)) :=
  read_from text StartRecord [] [] [].

End Csv.

(** ** The json module: [json.dump(..., indent=2, ensure_ascii=False)]
       and [json.load] *)

Module Json.

(** JSON values without numbers: the exporter writes none. *)
Inductive value : Type :=
| Null
| Bool (b : bool)
| Str (s : string)
| Arr (items : list value)
| Obj (members : list (string * value)).

Definition hexdigits : list ascii :=
  ["0"; "1"; "2"; "3"; "4"; "5"; "6"; "7";
   "8"; "9"; "a"; "b"; "c"; "d"; "e"; "f"]%char.

Definition hexdigit (n : nat) : ascii := nth n hexdigits "0"%char.

Definition backslash : ascii := "\"%char.

(** The replacement table of [encode_basestring]: quote, backslash and
    the control characters; everything else is written as it is. *)
Definition escape (c : ascii) : string :=
  let n := nat_of_ascii c in
  if Ascii.eqb c Text.dquote then String backslash (String Text.dquote "")
  else if Ascii.eqb c backslash then String backslash (String backslash "")
  else if Ascii.eqb c Text.LF then "\n"
  else if Ascii.eqb c Text.CR then "\r"
  else if Nat.eqb n 9 then "\t"
  else if Nat.eqb n 8 then "\b"
  else if Nat.eqb n 12 then "\f"
  else if Nat.ltb n 32
       then "\u00" ++ String (hexdigit (n / 16)) (String (hexdigit (n mod 16)) "")
       else String c "".

Fixpoint encode_chars (s : string) : string :=
  match s with
  | EmptyString => EmptyString
  | String c r => escape c ++ encode_chars r
  end.

Definition encode_basestring (s : string) : string :=
  String Text.dquote (encode_chars s ++ String Text.dquote "").

Fixpoint spaces (n : nat) : string :=
  match n with
  | O => ""
  | S k => " " ++ spaces k
  end.

(** A line break followed by [indent * level] spaces. *)
Definition newline_indent (indent level : nat) : string :=
  String Text.LF (spaces (indent * level)).

(** The encoder at nesting depth [level], with [item_separator = ','] and
    [key_separator = ': ']. *)
Fixpoint encode (indent level : nat) (v : value) : string :=
  match v with
  | Null => "null"
  | Bool true => "true"
  | Bool false => "false"
  | Str s => encode_basestring s
  | Arr [] => "[]"
  | Arr items =>
      "[" ++ newline_indent indent (S level)
      ++ Text.join ("," ++ newline_indent indent (S level))
           (map (encode indent (S level)) items)
      ++ newline_indent indent level ++ "]"
  | Obj [] => "{}"
  | Obj members =>
      "{" ++ newline_indent indent (S level)
      ++ Text.join ("," ++ newline_indent indent (S level))
           (map (fun kv : string * value =>
                   let (k, x) := kv in
                   encode_basestring k ++ ": " ++ encode indent (S level) x)
                members)
      ++ newline_indent indent level ++ "}"
  end.

Definition dumps (indent : nat) (v : value) : string := encode indent 0 v.

(** *** Decoding *)











(** A list of string-valued dictionaries as a JSON value, and back. *)
Definition of_record (d : Dict.t string) : value :=
  Obj (map (fun kv => (fst kv, Str (snd kv))) d).

Definition of_records (l : list (Dict.t string)) : value :=
  Arr (map of_record l).




End Json.

(** ** The methods of [ReviewScraper] *)

Section Methods.

Variable env : Env.

(** [time.sleep(secs)]: the checks of [sleep_raises], then the pause,
    which the operating system may refuse. *)
Definition time_sleep (secs : Q) : M unit :=
  fun st w =>
    match sleep_raises secs with
    | Some e => (Raise e, st, w)
    | None =>
        match os_sleep env (now w) secs with
        | Some cause => (Raise (OSError cause), st, w)
        | None => (Ok tt, st, log (EvSleep secs) w)
        end
    end.

(** [requests.get(url, headers=..., timeout=...)] *)
Definition requests_get (u : string) (hdrs : Headers) (timeout : nat)
    : M Response :=
  fun st w =>
    let w' := log (EvGet u hdrs timeout) w in
    match http env (now w) u hdrs with
    | ConnFail cause => (Raise (RequestException cause), st, w')
    | Responded r => (Ok r, st, w')
    | GetRaised e => (Raise e, st, w')
    end.

(** [Response.raise_for_status] of the requests library: an [HTTPError]
    for the status codes 400..599 and nothing for any other code. *)
Definition raise_for_status (r : Response) : M unit :=
  let code := status_code r in
  if ((400 <=? code) && (code <? 500))%nat then
    raise (RequestException
             (Text.str_of_nat code ++ " Client Error: " ++ reason r
              ++ " for url: " ++ url r))
  else if ((500 <=? code) && (code <? 600))%nat then
    raise (RequestException
             (Text.str_of_nat code ++ " Server Error: " ++ reason r
              ++ " for url: " ++ url r))
  else ret tt.

(** [BeautifulSoup(markup, 'html.parser')] *)
Definition BeautifulSoup (markup : string) : M PageElement :=
  fun st w => (html_parser env markup, st, w).

Definition fetch_page (u : string) : M (option PageElement) :=
  try_except
    (self <- get_self ;;
     response <- requests_get u (headers self) 10 ;;
     raise_for_status response ;;;
     soup <- BeautifulSoup (content response) ;;
     ret (Some soup))
    is_RequestException
    (fun e =>
       errors_append ("Failed to fetch " ++ u ++ ": " ++ str_exn e) ;;;
       ret None).

(** [found.text] where [found] is the result of [find]: on [None] the
    attribute access raises. *)
Definition text_of (found : option PageElement) : M string :=
  match found with
  | Some t => ret (text t)
  | None => raise (AttributeError "'NoneType' object has no attribute 'text'")
  end.

(** [container.find(name, class_=cls).text.strip()] *)
Definition field_text (container : PageElement) (name cls : string)
    : M string :=
  t <- text_of (find container name cls) ;;
  ret (Text.strip t).

(** The dictionary display inside the [try]: the six fields are
    evaluated in the order they are written. *)
Definition build_review (container : PageElement) : M Review :=
  title <- field_text container "h3" "review-title" ;;
  author <- field_text container "span" "reviewer-name" ;;
  rating <- field_text container "span" "rating" ;;
  date <- field_text container "span" "review-date" ;;
  body <- field_text container "p" "review-text" ;;
  helpful <- field_text container "span" "helpful-count" ;;
  ret [("title", title); ("author", author); ("rating", rating);
       ("date", date); ("text", body); ("helpful", helpful)].

(** The [for container in review_containers] loop; [acc] is the local
    list [reviews]. *)
Fixpoint extract_loop (containers : list PageElement) (acc : list Review)
    : M (list Review) :=
  match containers with
  | [] => ret acc
  | container :: rest =>
      acc' <- try_except
                (review <- build_review container ;;
                 ret (acc ++ [review])%list)
                is_AttributeError
                (fun e =>
                   errors_append ("Failed to parse review: " ++ str_exn e) ;;;
                   ret acc) ;;
      extract_loop rest acc'
  end.

Definition extract_reviews (soup : PageElement) : M (list Review) :=
  extract_loop (find_all soup "div" "review-item") [].

(** The [for i, url in enumerate(page_urls, 1)] loop; [n] is
    [len(page_urls)] and [acc] the local list [all_reviews].  A parsed
    document is always truthy, so [if soup] tests for [None]. *)
Fixpoint scrape_loop (n i : nat) (page_urls : list string) (delay : Q)
    (acc : list Review) : M (list Review) :=
  match page_urls with
  | [] => ret acc
  | u :: rest =>
      print ("Scraping page " ++ Text.str_of_nat i ++ "/"
             ++ Text.str_of_nat n ++ ": " ++ u) ;;;
      soup <- fetch_page u ;;
      acc' <- match soup with
              | Some doc =>
                  page_reviews <- extract_reviews doc ;;
                  print ("Found "
                         ++ Text.str_of_nat (List.length page_reviews)
                         ++ " reviews on page " ++ Text.str_of_nat i) ;;;
                  ret (acc ++ page_reviews)%list
              | None => ret acc
              end ;;
      (if (i <? n)%nat then time_sleep delay else ret tt) ;;;
      scrape_loop n (S i) rest delay acc'
  end.

Definition scrape_multiple_pages (page_urls : list string) (delay : Q)
    : M (list Review) :=
  all_reviews <- scrape_loop (List.length page_urls) 1 page_urls delay [] ;;
  set_reviews all_reviews ;;;
  ret all_reviews.

(** [with open(filename, 'w', ...) as f: body]: opening may fail with an
    [OSError]; otherwise the file is created or truncated and holds what
    the body wrote once the block is left, also when the body raised.
    [open_w] answers for the file as a whole: a device that accepts the
    open and refuses the writes that follow (a full disk), where the
    block raises its [OSError] with the file already truncated, has no
    counterpart here. *)
Definition with_open_w {A} (filename : string) (body : result A * string)
    : M A :=
  fun st w =>
    let w' := log (EvOpen filename) w in
    match open_w env (now w) filename with
    | Some cause => (Raise (OSError cause), st, w')
    | None => (fst body, st, write_file filename (snd body) w')
    end.

(** What the body of the [with] block of [export_to_csv] writes; [first]
    is [self.reviews[0]]. *)
Definition csv_body (first : Review) (rows : list Review)
    : result unit * string :=
  let keys := Dict.keys first in
  let '(res, out) := Csv.writerows (repr_fields env) keys rows in
  (res, Csv.writeheader keys ++ out).

Definition export_to_csv (filename : string) : M bool :=
  self <- get_self ;;
  match reviews self with
  | [] => print "No reviews to export" ;;; ret false
  | first :: _ =>
      try_except
        (with_open_w filename (csv_body first (reviews self)) ;;;
         print ("Exported " ++ Text.str_of_nat (List.length (reviews self))
                ++ " reviews to " ++ filename) ;;;
         ret true)
        is_Exception
        (fun e =>
           errors_append ("Failed to export CSV: " ++ str_exn e) ;;;
           ret false)
  end.

Definition export_to_json (filename : string) : M bool :=
  self <- get_self ;;
  match reviews self with
  | [] => print "No reviews to export" ;;; ret false
  | _ :: _ =>
      try_except
        (with_open_w filename
           (Ok tt, Json.dumps 2 (Json.of_records (reviews self))) ;;;
         print ("Exported " ++ Text.str_of_nat (List.length (reviews self))
                ++ " reviews to " ++ filename) ;;;
         ret true)
        is_Exception
        (fun e =>
           errors_append ("Failed to export JSON: " ++ str_exn e) ;;;
           ret false)
  end.

(** A value of the statistics mapping. *)
Inductive stat : Type :=
| StatInt (n : nat)
| StatStr (s : string).

(** [datetime.now().isoformat()] *)
Definition datetime_now_isoformat : M string :=
  fun st w => (Ok (now_isoformat env (now w)), st, log EvNow w).

Definition get_statistics : M (Dict.t stat) :=
  self <- get_self ;;
  match reviews self with
  | [] => ret []
  | _ :: _ =>
      scrape_date <- datetime_now_isoformat ;;
      ret [("total_reviews", StatInt (List.length (reviews self)));
           ("scrape_date", StatStr scrape_date);
           ("total_errors", StatInt (List.length (errors self)))]
  end.

(** *** Sequences of method calls on one instance *)

Inductive call : Type :=
| CallFetchPage (u : string)
| CallExtractReviews (soup : PageElement)
| CallScrapeMultiplePages (page_urls : list string) (delay : Q)
| CallExportToCsv (filename : string)
| CallExportToJson (filename : string)
| CallGetStatistics.

Definition after {A} (r : result A * ReviewScraper * World)
    : ReviewScraper * World :=
  (snd (fst r), snd r).

(** The instance and the world after one call, whatever it returned. *)
Definition perform (c : call) (st : ReviewScraper) (w : World)
    : ReviewScraper * World :=
  match c with
  | CallFetchPage u => after (fetch_page u st w)
  | CallExtractReviews soup => after (extract_reviews soup st w)
  | CallScrapeMultiplePages l d => after (scrape_multiple_pages l d st w)
  | CallExportToCsv f => after (export_to_csv f st w)
  | CallExportToJson f => after (export_to_json f st w)
  | CallGetStatistics => after (get_statistics st w)
  end.

Fixpoint perform_all (cs : list call) (st : ReviewScraper) (w : World)
    : ReviewScraper * World :=
  match cs with
  | [] => (st, w)
  | c :: rest =>
      let '(st', w') := perform c st w in perform_all rest st' w'
  end.

End Methods.

(** ** Vocabulary of the properties *)

(** The six sub-fields of a review container: the key of the record and
    the marker ([name], [class]) that locates it. *)
Definition FIELD_MARKERS : list (string * (string * string)) :=
  [("title", ("h3", "review-title"));
   ("author", ("span", "reviewer-name"));
   ("rating", ("span", "rating"));
   ("date", ("span", "review-date"));
   ("text", ("p", "review-text"));
   ("helpful", ("span", "helpful-count"))].

Definition REVIEW_FIELDS : list string := map fst FIELD_MARKERS.

Definition has_field (c : PageElement) (m : string * string) : bool :=
  match find c (fst m) (snd m) with
  | Some _ => true
  | None => false
  end.

(** The sub-fields [find] does not locate in [c]. *)
Definition missing_fields (c : PageElement) : list (string * string) :=
  filter (fun m => negb (has_field c m)) (map snd FIELD_MARKERS).

Definition well_formed (c : PageElement) : bool :=
  match missing_fields c with
  | [] => true
  | _ :: _ => false
  end.

Definition missing_exactly_one (c : PageElement) : Prop :=
  List.length (missing_fields c) = 1.

(** The record of a container: every sub-field's text, trimmed. *)
Definition record_of (c : PageElement) : Review :=
  map (fun km : string * (string * string) =>
         (fst km,
          Text.strip (match find c (fst (snd km)) (snd (snd km)) with
                      | Some t => text t
                      | None => ""
                      end)))
      FIELD_MARKERS.

Definition PARSE_FAILURE : string :=
  "Failed to parse review: 'NoneType' object has no attribute 'text'".

(** A review-container marker: a [div] whose classes include
    [review-item]. *)
Definition is_review_container (e : PageElement) : Prop :=
  match e with
  | NavigableString _ => False
  | Tag n classes _ => n = "div" /\ In "review-item" classes
  end.

(** A fetch fails at the transport level, or the server answers with a
    4xx or 5xx status. *)
Definition transport_failure (o : http_outcome) : Prop :=
  exists cause, o = ConnFail cause.

Definition error_status (o : http_outcome) : Prop :=
  exists r, o = Responded r /\ 400 <= status_code r < 600.

Definition fetch_fails (o : http_outcome) : Prop :=
  transport_failure o \/ error_status o.

Definition FETCH_FAILURE (u cause : string) : string :=
  "Failed to fetch " ++ u ++ ": " ++ cause.

(** The only change from [st] to [st'] is that errors were appended. *)
Definition only_appends_errors (st st' : ReviewScraper) : Prop :=
  base_url st' = base_url st /\ headers st' = headers st /\
  reviews st' = reviews st /\
  exists added, errors st' = (errors st ++ added)%list.

(** An answer whose status is outside 2xx and 3xx. *)
Definition non_success_status (o : http_outcome) : Prop :=
  exists r, o = Responded r /\ ~ 200 <= status_code r < 400.

(** ** A small site to run the code on *)

Module Example.

Definition field (name cls txt : string) : PageElement :=
  Tag name [cls] [NavigableString txt].

(** A complete review, with white space around the title. *)
Definition complete : PageElement :=
  Tag "div" ["review-item"; "card"]
    [field "h3" "review-title" "  Solid laptop ";
     field "span" "reviewer-name" "Ann";
     field "span" "rating" "5";
     field "span" "review-date" "2024-01-05";
     field "p" "review-text" "Fast, quiet";
     field "span" "helpful-count" "12"].

(** A review whose rating is missing. *)
Definition unrated : PageElement :=
  Tag "div" ["review-item"]
    [field "h3" "review-title" "Meh";
     field "span" "reviewer-name" "Bob";
     field "span" "review-date" "2024-02-01";
     field "p" "review-text" "Keyboard broke";
     field "span" "helpful-count" "0"].

Definition page : PageElement :=
  Tag "[document]" []
    [Tag "html" [] [Tag "body" [] [complete; unrated; complete]]].

(** A page without reviews. *)
Definition blank : PageElement :=
  Tag "[document]" []
    [Tag "html" [] [Tag "body" [] [field "p" "notice" "No reviews yet"]]].

Definition page1 : string := "https://example.com/reviews?page=1".
Definition page2 : string := "https://example.com/reviews?page=2".
Definition denied : string := "https://example.com/denied".
Definition gone : string := "https://example.com/gone".

(** Page 1 is served, page 2 answers 500, [denied] answers 999, [gone]
    answers 404 and every other host is unreachable.  Files open unless
    their name is empty; the offending keys of a CSV row are shown
    between quotes; the system refuses pauses of nine billion seconds
    and more. *)
Definition env : Env :=
  mkEnv
    (fun _ u _ =>
       if String.eqb u page1 then Responded (mkResponse 200 "OK" u "<html>")
       else if String.eqb u page2
       then Responded (mkResponse 500 "Internal Server Error" u "")
       else if String.eqb u denied
       then Responded (mkResponse 999 "Request denied" u "<html>")
       else if String.eqb u gone
       then Responded (mkResponse 404 "Not Found" u "")
       else ConnFail "Connection refused")
    (fun _ => Ok page)
    (fun _ name =>
       if String.eqb name "" then Some "[Errno 2] No such file or directory: ''"
       else None)
    (fun _ => "2024-03-01T12:00:00")
    (fun wrong => Text.join ", " (map (fun k => "'" ++ k ++ "'") wrong))
    (fun _ secs =>
       if Qle_bool (inject_Z (9 * 10 ^ 9)) secs
       then Some "[Errno 22] Invalid argument"
       else None).

Definition scraper : ReviewScraper := init "https://example.com" None.

Definition world : World := mkWorld [] [].

End Example.

(** *** Reading the trace *)

Definition is_sleep (e : event) : bool :=
  match e with EvSleep _ => true | _ => false end.

Definition is_get_or_sleep (e : event) : bool :=
  match e with EvGet _ _ _ | EvSleep _ => true | _ => false end.

(** The requests and pauses of a run over [page_urls]: one request per
    URL, and one pause after each URL but the last. *)
Fixpoint requests_and_pauses (hdrs : Headers) (delay : Q)
    (page_urls : list string) : list event :=
  match page_urls with
  | [] => []
  | u :: rest =>
      EvGet u hdrs 10
      :: match rest with
         | [] => []
         | _ :: _ => EvSleep delay :: requests_and_pauses hdrs delay rest
         end
  end.

(** The world after the effects [evs], files untouched. *)
Definition logs (evs : list event) (w : World) : World :=
  mkWorld (trace w ++ evs) (files w).

(** The log entries of a run in which the fetch of every URL failed. *)
Definition fetch_failures (page_urls causes : list string) : list string :=
  map (fun uc => FETCH_FAILURE (fst uc) (snd uc)) (combine page_urls causes).

(** URLs none of which can be fetched in [Example.env]. *)
Definition unreachable_pages : list string :=
  [Example.page2; Example.gone; "https://offline.example/reviews"].

(** A scraper with an empty accumulator and a non-empty error log. *)
Definition failed_scraper : ReviewScraper :=
  push_errors Example.scraper [FETCH_FAILURE Example.gone "404"].

(** An instance that has scraped page 1 of the example site. *)
Definition scraped_once : ReviewScraper * World :=
  perform Example.env (CallScrapeMultiplePages [Example.page1] 1)
    Example.scraper Example.world.


(** *** Reading an exported file *)



(** Every record's keys are among the header's. *)
Definition fits_header (first : Review) (rows : list Review) : Prop :=
  Forall (fun r => incl (Dict.keys r) (Dict.keys first)) rows.

(** The instance and world of [scraped_once], and a file name. *)
Definition scraped : ReviewScraper := fst scraped_once.
Definition scraped_world : World := snd scraped_once.


(** An instance whose second record carries a key the first lacks, as
    only an assignment to [reviews] from outside can produce. *)
Definition uneven_scraper : ReviewScraper :=
  with_reviews Example.scraper
    [[("title", "A")]; [("title", "B"); ("verified", "yes")]].

(** ** The script [example.py] *)

(** What can end the script early: an exception a method let through,
    or the [KeyError] of a subscript on the statistics. *)
Inductive script_exn : Type :=
| Uncaught (e : exn)
| KeyError (key : string).

Inductive outcome : Type :=
| Finished
| Crashed (e : script_exn).

(** [str(v)] inside an f-string. *)
Definition str_stat (v : stat) : string :=
  match v with
  | StatInt n => Text.str_of_nat n
  | StatStr s => s
  end.

Definition pages_to_scrape : list string :=
  ["https://example-ecommerce.com/product/laptop/reviews?page=1";
   "https://example-ecommerce.com/product/laptop/reviews?page=2";
   "https://example-ecommerce.com/product/laptop/reviews?page=3"].

(** A line that starts with a line feed. *)
Definition after_newline (s : string) : string := String Text.LF s.

(** The script up to [print(f"\nStatistics:")]: every step is a method
    call or a [print]. *)
Definition example_prelude (env : Env) : M (Dict.t stat) :=
  print "Starting web scraping..." ;;;
  scraped_reviews <- scrape_multiple_pages env pages_to_scrape 2 ;;
  print (after_newline
           ("Scraped " ++ Text.str_of_nat (List.length scraped_reviews)
            ++ " reviews")) ;;;
  export_to_csv env "reviews_output.csv" ;;;
  export_to_json env "reviews_output.json" ;;;
  stats <- get_statistics env ;;
  print (after_newline "Statistics:") ;;;
  ret stats.

(** [for error in scraper.errors: print(f"  - {error}")] *)
Fixpoint print_errors (errs : list string) (w : World) : World :=
  match errs with
  | [] => w
  | e :: rest => print_errors rest (log (EvPrint ("  - " ++ e)) w)
  end.

(** The whole script: the three subscripts on [stats] raise [KeyError]
    on a missing key, each before its line is printed. *)
Definition example_main (env : Env) (w : World)
    : outcome * ReviewScraper * World :=
  match example_prelude env (init "https://example-ecommerce.com" None) w with
  | (Raise e, st, w1) => (Crashed (Uncaught e), st, w1)
  | (Ok stats, st, w1) =>
      match Dict.get stats "total_reviews" with
      | None => (Crashed (KeyError "total_reviews"), st, w1)
      | Some total =>
          let w2 := log (EvPrint ("  Total reviews: " ++ str_stat total)) w1 in
          match Dict.get stats "total_errors" with
          | None => (Crashed (KeyError "total_errors"), st, w2)
          | Some failed =>
              let w3 :=
                log (EvPrint ("  Errors encountered: " ++ str_stat failed))
                    w2 in
              match Dict.get stats "scrape_date" with
              | None => (Crashed (KeyError "scrape_date"), st, w3)
              | Some date =>
                  let w4 :=
                    log (EvPrint ("  Scrape date: " ++ str_stat date)) w3 in
                  (Finished, st,
                   match errors st with
                   | [] => w4
                   | _ :: _ =>
                       print_errors (errors st)
                         (log (EvPrint (after_newline "Errors:")) w4)
                   end)
              end
          end
      end
  end.

(** *** More vocabulary *)

(** A text that neither starts nor ends with white space. *)
Definition starts_clean (l : list ascii) : Prop :=
  match l with
  | [] => True
  | c :: _ => Text.isspace c = false
  end.

Definition trimmed (s : string) : Prop :=
  starts_clean (list_ascii_of_string s)
  /\ starts_clean (rev (list_ascii_of_string s)).

(** A computation that leaves the files as they are. *)
Definition keeps_files {A} (m : M A) : Prop :=
  forall st w, files (snd (m st w)) = files w.


(** The three entries of the statistics of an instance at time [t]. *)
Definition statistics_of (env : Env) (st : ReviewScraper) (t : nat)
    : Dict.t stat :=
  [("total_reviews", StatInt (List.length (reviews st)));
   ("scrape_date", StatStr (now_isoformat env t));
   ("total_errors", StatInt (List.length (errors st)))].


(** Is the call one of the two exporters? *)
Definition is_export (c : call) : bool :=
  match c with
  | CallExportToCsv _ | CallExportToJson _ => true
  | _ => false
  end.

(** An environment in which no host answers and every file opens. *)
Definition offline : Env :=
  mkEnv (fun _ _ _ => ConnFail "Connection refused")
        (fun _ => Ok Example.blank)
        (fun _ _ => None)
        (fun _ => "2024-03-01T12:00:00")
        (fun wrong => Text.join ", " (map (fun k => "'" ++ k ++ "'") wrong))
        (fun _ _ => None).


(** The message of bs4's [ParserRejectedMarkup] when [html.parser]
    gives up on a body. *)
Definition PARSER_REJECTION : string :=
  "The markup you provided was rejected by the parser. Trying a different parser or a different encoding may help.".

(** An environment in which every page is served with a body the HTML
    parser rejects. *)
Definition rejecting : Env :=
  mkEnv (fun _ u _ => Responded (mkResponse 200 "OK" u "<![ x"))
        (fun _ =>
           Raise (ParserRejectedMarkup PARSER_REJECTION))
        (fun _ _ => None)
        (fun _ => "2024-03-01T12:00:00")
        (fun wrong => Text.join ", " (map (fun k => "'" ++ k ++ "'") wrong))
        (fun _ _ => None).

(** *** Accounting for a run, page by page *)

(** What one page gives: its records, and its entries in the error log
    ([soup] is what [fetch_page] returned for [u], [cause] the cause of
    a failed fetch). *)
Definition page_records (soup : option PageElement) : list Review :=
  match soup with
  | Some doc =>
      map record_of (filter well_formed (find_all doc "div" "review-item"))
  | None => []
  end.

Definition page_errors (u : string) (soup : option PageElement)
    (cause : string) : list string :=
  match soup with
  | Some doc =>
      map (fun _ => PARSE_FAILURE)
          (filter (fun c => negb (well_formed c))
                  (find_all doc "div" "review-item"))
  | None => [FETCH_FAILURE u cause]
  end.


(** The error entries of a run over [page_urls] whose pages were
    [pages]. *)
Definition run_errors (page_urls : list string)
    (pages : list (option PageElement * string)) : list string :=
  flat_map (fun up => page_errors (fst up) (fst (snd up)) (snd (snd up)))
           (combine page_urls pages).

(** *** What a run needs to complete *)

(** [time.sleep] accepts the delay, at any time: it passes the checks
    of [sleep_raises] and the operating system does not refuse it. *)
Definition pauses (env : Env) (delay : Q) : Prop :=
  sleep_raises delay = None /\ forall t, os_sleep env t delay = None.

(** The exception that gets past the handler of [fetch_page] when [u]
    is requested at time [t], if any: what [requests.get] or the parser
    raised outside [RequestException]. *)
Definition fetch_escape (env : Env) (hdrs : Headers) (t : nat) (u : string)
    : option exn :=
  match http env t u hdrs with
  | ConnFail _ => None
  | GetRaised e => if is_RequestException e then None else Some e
  | Responded r =>
      if ((400 <=? status_code r) && (status_code r <? 600))%nat then None
      else
        match html_parser env (content r) with
        | Ok _ => None
        | Raise e => if is_RequestException e then None else Some e
        end
  end.

(** No exception gets past the handler for the URLs of the list. *)
Definition fetches_return (env : Env) (hdrs : Headers)
    (page_urls : list string) : Prop :=
  forall t u, In u page_urls -> fetch_escape env hdrs t u = None.

(** An environment like [Example.env] where the URL [http://a..b/] is
    refused by the URL parser and the body of page 2 by the HTML parser. *)
Definition malformed : string := "http://a..b/".

Definition hostile : Env :=
  mkEnv
    (fun t u h =>
       if String.eqb u malformed
       then GetRaised (LocationParseError "Failed to parse: 'a..b', label empty or too long")
       else if String.eqb u Example.page2
       then Responded (mkResponse 200 "OK" u "<![ x")
       else http Example.env t u h)
    (fun markup =>
       if String.eqb markup "<![ x"
       then Raise (ParserRejectedMarkup PARSER_REJECTION)
       else Ok Example.page)
    (open_w Example.env)
    (now_isoformat Example.env)
    (repr_fields Example.env)
    (os_sleep Example.env).

(** The line [scrape_multiple_pages] prints before page [i] of [n]. *)
Definition progress_line (i n : nat) (u : string) : string :=
  "Scraping page " ++ Text.str_of_nat i ++ "/" ++ Text.str_of_nat n
  ++ ": " ++ u.

(** The document [u] is served with at time [t]: the parsed body of an
    answer that is not 4xx or 5xx, when the parser accepts it. *)
Definition served_document (env : Env) (hdrs : Headers) (t : nat)
    (u : string) : option PageElement :=
  match http env t u hdrs with
  | Responded r =>
      if ((400 <=? status_code r) && (status_code r <? 600))%nat then None
      else
        match html_parser env (content r) with
        | Ok doc => Some doc
        | Raise _ => None
        end
  | _ => None
  end.

(** [soup] is what a request for [u] led to, at some time at which
    nothing got past the handler: the document served, or [None]. *)
Definition fetched (env : Env) (hdrs : Headers) (u : string)
    (soup : option PageElement) : Prop :=
  exists t,
    fetch_escape env hdrs t u = None
    /\ soup = served_document env hdrs t u.



(** ** Properties *)

(** *** Running monadic code *)

Ltac run :=
  unfold try_except, bind, ret, raise, errors_append, set_reviews,
    get_self, print; cbn [fst snd].

Lemma push_errors_nil st : push_errors st [] = st.
Proof. destruct st; unfold push_errors; cbn; now rewrite app_nil_r. Qed.

Lemma push_errors_app st l1 l2 :
  push_errors (push_errors st l1) l2 = push_errors st (l1 ++ l2).
Proof. unfold push_errors; cbn; now rewrite app_assoc. Qed.

Lemma only_appends_push st msgs : only_appends_errors st (push_errors st msgs).
Proof. unfold only_appends_errors; cbn; repeat split; now exists msgs. Qed.

(** *** The page fetcher *)

(** What [fetch_page] does, by the outcome of the request. *)
Lemma fetch_page_transport env u st w cause :
  http env (now w) u (headers st) = ConnFail cause ->
  fetch_page env u st w =
    (Ok None, push_errors st [FETCH_FAILURE u cause],
     log (EvGet u (headers st) 10) w).
Proof.
  intros H. unfold fetch_page, requests_get. run. now rewrite H.
Qed.

Lemma fetch_page_error_status env u st w r :
  http env (now w) u (headers st) = Responded r ->
  400 <= status_code r < 600 ->
  exists cause,
    fetch_page env u st w =
      (Ok None, push_errors st [FETCH_FAILURE u cause],
       log (EvGet u (headers st) 10) w).
Proof.
  intros H Hs. unfold fetch_page, requests_get, raise_for_status. run.
  rewrite H.
  destruct ((400 <=? status_code r)%nat && (status_code r <? 500)%nat) eqn:E4.
  - eexists; reflexivity.
  - destruct ((500 <=? status_code r)%nat && (status_code r <? 600)%nat) eqn:E5.
    + eexists; reflexivity.
    + exfalso.
      apply andb_false_iff in E4, E5.
      rewrite Nat.leb_gt, Nat.ltb_ge in E4, E5. lia.
Qed.

(** An answer that is not 4xx or 5xx goes to the parser. *)
Lemma fetch_page_parsed env u st w r :
  http env (now w) u (headers st) = Responded r ->
  ~ 400 <= status_code r < 600 ->
  fetch_page env u st w =
    match html_parser env (content r) with
    | Ok doc => (Ok (Some doc), st, log (EvGet u (headers st) 10) w)
    | Raise e =>
        if is_RequestException e
        then (Ok None, push_errors st [FETCH_FAILURE u (str_exn e)],
              log (EvGet u (headers st) 10) w)
        else (Raise e, st, log (EvGet u (headers st) 10) w)
    end.
Proof.
  intros H Hs.
  unfold fetch_page, requests_get, raise_for_status, BeautifulSoup. run.
  rewrite H.
  destruct ((400 <=? status_code r)%nat && (status_code r <? 500)%nat) eqn:E4.
  - apply andb_true_iff in E4. rewrite Nat.leb_le, Nat.ltb_lt in E4. lia.
  - destruct ((500 <=? status_code r)%nat && (status_code r <? 600)%nat) eqn:E5.
    + apply andb_true_iff in E5. rewrite Nat.leb_le, Nat.ltb_lt in E5. lia.
    + destruct (html_parser env (content r)) as [doc | e];
        [ reflexivity | ].
      destruct (is_RequestException e); reflexivity.
Qed.

Lemma fetch_page_success env u st w r doc :
  http env (now w) u (headers st) = Responded r ->
  ~ 400 <= status_code r < 600 ->
  html_parser env (content r) = Ok doc ->
  fetch_page env u st w =
    (Ok (Some doc), st, log (EvGet u (headers st) 10) w).
Proof.
  intros H Hs Hp. rewrite (fetch_page_parsed env u st w r H Hs).
  now rewrite Hp.
Qed.

(** What [requests.get] raised, seen from [fetch_page]. *)
Lemma fetch_page_get_raised env u st w e :
  http env (now w) u (headers st) = GetRaised e ->
  fetch_page env u st w =
    if is_RequestException e
    then (Ok None, push_errors st [FETCH_FAILURE u (str_exn e)],
          log (EvGet u (headers st) 10) w)
    else (Raise e, st, log (EvGet u (headers st) 10) w).
Proof.
  intros H. unfold fetch_page, requests_get. run. rewrite H.
  destruct (is_RequestException e); reflexivity.
Qed.

Lemma error_status_dec c :
  ((400 <=? c) && (c <? 600))%nat = true <-> 400 <= c < 600.
Proof.
  rewrite andb_true_iff, Nat.leb_le, Nat.ltb_lt. reflexivity.
Qed.

(** Every case of [fetch_page]: it returns or raises after one request,
    appends one error exactly when it returns [None], and lets through
    only what [fetch_escape] names. *)
Lemma fetch_page_cases env u st w :
  exists r added,
    fetch_page env u st w =
      (r, push_errors st added, log (EvGet u (headers st) 10) w)
    /\ (r = Ok None -> exists cause, added = [FETCH_FAILURE u cause])
    /\ (r <> Ok None -> added = [])
    /\ (forall e, r = Raise e <->
                  fetch_escape env (headers st) (now w) u = Some e)
    /\ (forall soup, r = Ok soup ->
          soup = served_document env (headers st) (now w) u).
Proof.
  unfold fetch_escape, served_document.
  destruct (http env (now w) u (headers st)) as [cause | resp | e] eqn:H.
  - exists (Ok None), [FETCH_FAILURE u cause].
    split; [ now apply fetch_page_transport | ].
    split; [ intros _; now exists cause | ].
    split; [ congruence | ].
    split; [ intros e; split; discriminate | ].
    now intros soup [= <-].
  - destruct ((400 <=? status_code resp) && (status_code resp <? 600))%nat
      eqn:Es.
    + apply error_status_dec in Es.
      destruct (fetch_page_error_status env u st w resp H Es) as (cause & Hc).
      exists (Ok None), [FETCH_FAILURE u cause].
      split; [ exact Hc | ].
      split; [ intros _; now exists cause | ].
      split; [ congruence | ].
      split; [ intros e; split; discriminate | ].
      now intros soup [= <-].
    + assert (Hs : ~ 400 <= status_code resp < 600).
      { intros Hc. apply error_status_dec in Hc. congruence. }
      rewrite (fetch_page_parsed env u st w resp H Hs).
      destruct (html_parser env (content resp)) as [doc | e] eqn:Hp.
      * exists (Ok (Some doc)), []. rewrite push_errors_nil.
        split; [ reflexivity | ].
        split; [ discriminate | ]. split; [ reflexivity | ].
        split; [ intros e; split; discriminate | ].
        now intros soup [= <-].
      * destruct (is_RequestException e) eqn:Ee.
        -- exists (Ok None), [FETCH_FAILURE u (str_exn e)].
           split; [ reflexivity | ].
           split; [ intros _; now eexists | ].
           split; [ congruence | ].
           split; [ intros e'; split; discriminate | ].
           now intros soup [= <-].
        -- exists (Raise e), []. rewrite push_errors_nil.
           split; [ reflexivity | ].
           split; [ discriminate | ]. split; [ reflexivity | ].
           split; [ intros e'; split; congruence | discriminate ].
  - rewrite (fetch_page_get_raised env u st w e H).
    destruct (is_RequestException e) eqn:Ee.
    + exists (Ok None), [FETCH_FAILURE u (str_exn e)].
      split; [ reflexivity | ].
      split; [ intros _; now eexists | ].
      split; [ congruence | ].
      split; [ intros e'; split; discriminate | ].
      now intros soup [= <-].
    + exists (Raise e), []. rewrite push_errors_nil.
      split; [ reflexivity | ].
      split; [ discriminate | ]. split; [ reflexivity | ].
      split; [ intros e'; split; congruence | discriminate ].
Qed.

(** When nothing gets past the handler, [fetch_page] returns; it
    appends at most one error and issues one request. *)
Lemma fetch_page_returns env u st w :
  fetch_escape env (headers st) (now w) u = None ->
  exists soup added,
    fetch_page env u st w =
      (Ok soup, push_errors st added, log (EvGet u (headers st) 10) w)
    /\ (soup = None -> exists cause, added = [FETCH_FAILURE u cause])
    /\ (soup <> None -> added = []).
Proof.
  intros Hesc.
  destruct (fetch_page_cases env u st w)
    as (r & added & H & Hnone & Hsome & Hraise & _).
  destruct r as [soup | e].
  - exists soup, added. split; [ exact H | ].
    split; [ intros ->; now apply Hnone | ].
    intros Hs. apply Hsome. congruence.
  - destruct (Hraise e) as [Hr _]. rewrite (Hr eq_refl) in Hesc.
    discriminate.
Qed.

(** *** The review extractor *)

Lemma build_review_spec c st w :
  build_review c st w =
    if well_formed c then (Ok (record_of c), st, w)
    else (Raise (AttributeError "'NoneType' object has no attribute 'text'"),
          st, w).
Proof.
  unfold build_review, field_text, text_of, well_formed, missing_fields,
    record_of, has_field, FIELD_MARKERS.
  cbn [map filter fst snd].
  destruct (find c "h3" "review-title"); run; [ | reflexivity ].
  destruct (find c "span" "reviewer-name"); run; cbn [negb];
    [ | destruct (find c "span" "rating"), (find c "span" "review-date"),
          (find c "p" "review-text"), (find c "span" "helpful-count");
        reflexivity ].
  destruct (find c "span" "rating"); run; cbn [negb];
    [ | destruct (find c "span" "review-date"),
          (find c "p" "review-text"), (find c "span" "helpful-count");
        reflexivity ].
  destruct (find c "span" "review-date"); run; cbn [negb];
    [ | destruct (find c "p" "review-text"), (find c "span" "helpful-count");
        reflexivity ].
  destruct (find c "p" "review-text"); run; cbn [negb];
    [ | destruct (find c "span" "helpful-count"); reflexivity ].
  destruct (find c "span" "helpful-count"); run; reflexivity.
Qed.

(** The records and the errors a list of containers gives rise to. *)
Lemma extract_loop_spec containers : forall acc st w,
  extract_loop containers acc st w =
    (Ok (acc ++ map record_of (filter well_formed containers))%list,
     push_errors st
       (map (fun _ => PARSE_FAILURE)
            (filter (fun c => negb (well_formed c)) containers)),
     w).
Proof.
  induction containers as [| c cs IH]; intros acc st w.
  - cbn. run. now rewrite app_nil_r, push_errors_nil.
  - cbn [extract_loop]. run. rewrite build_review_spec.
    cbn [filter]. destruct (well_formed c); cbn [negb is_AttributeError].
    + rewrite IH. cbn [map]. now rewrite <- app_assoc.
    + rewrite IH, push_errors_app. reflexivity.
Qed.

Lemma extract_reviews_spec soup st w :
  extract_reviews soup st w =
    (Ok (map record_of
           (filter well_formed (find_all soup "div" "review-item"))),
     push_errors st
       (map (fun _ => PARSE_FAILURE)
            (filter (fun c => negb (well_formed c))
                    (find_all soup "div" "review-item"))),
     w).
Proof. unfold extract_reviews. now rewrite extract_loop_spec. Qed.

Lemma missing_one_not_well_formed c :
  missing_exactly_one c -> well_formed c = false.
Proof.
  unfold missing_exactly_one, well_formed.
  destruct (missing_fields c); [ discriminate | reflexivity ].
Qed.

(** *** Claims about the fetcher and the extractor *)

(** C4 (as amended): when the request fails at the transport level or
    the server answers with a 4xx or 5xx status, [fetch_page] returns
    [None] without raising, appends exactly one entry
    ["Failed to fetch {url}: {cause}"] to the error log and leaves the
    accumulated reviews alone. *)
Theorem fetch_page_failure_logged env u st w :
  fetch_fails (http env (now w) u (headers st)) ->
  exists cause st' w',
    fetch_page env u st w = (Ok None, st', w')
    /\ errors st' = (errors st ++ [FETCH_FAILURE u cause])%list
    /\ reviews st' = reviews st.
Proof.
  intros [[cause H] | [r [H Hs]]].
  - exists cause. do 2 eexists.
    rewrite (fetch_page_transport env u st w cause H).
    repeat split; reflexivity.
  - destruct (fetch_page_error_status env u st w r H Hs) as [cause Hc].
    exists cause. do 2 eexists. rewrite Hc.
    repeat split; reflexivity.
Qed.

Lemma fetch_page_failure_logged_witness :
  fetch_fails (http Example.env (now Example.world) Example.page2
                 (headers Example.scraper))
  /\ exists cause st' w',
       fetch_page Example.env Example.page2 Example.scraper Example.world
         = (Ok None, st', w')
       /\ errors st'
          = (errors Example.scraper
             ++ [FETCH_FAILURE Example.page2 cause])%list
       /\ reviews st' = reviews Example.scraper.
Proof.
  assert (H : fetch_fails (http Example.env (now Example.world) Example.page2
                             (headers Example.scraper))).
  { right. eexists. split; [ reflexivity | cbn; lia ]. }
  split; [ exact H | ].
  exact (fetch_page_failure_logged Example.env Example.page2
           Example.scraper Example.world H).
Defined.

(** C4 (as stated) fails: a status outside 2xx/3xx that is not 4xx/5xx
    either, such as 999, passes [raise_for_status]; the page is parsed
    and returned and nothing is logged. *)
Lemma fetch_page_status_999_is_returned :
  ~ (forall env u st w,
       non_success_status (http env (now w) u (headers st)) ->
       exists cause st' w',
         fetch_page env u st w = (Ok None, st', w')
         /\ errors st' = (errors st ++ [FETCH_FAILURE u cause])%list).
Proof.
  intros claim.
  destruct (claim Example.env Example.denied Example.scraper Example.world)
    as (cause & st' & w' & Hrun & _).
  - eexists. split; [ reflexivity | cbn; lia ].
  - vm_compute in Hrun. discriminate Hrun.
Qed.

(** C10: [fetch_page] and [extract_reviews] leave [base_url], [headers]
    and the accumulated reviews unchanged; the only field they touch is
    the error log, and only by appending to it. *)
Theorem fetch_and_extract_only_append_errors env :
  (forall u st w,
     only_appends_errors st (snd (fst (fetch_page env u st w))))
  /\ (forall soup st w,
        only_appends_errors st (snd (fst (extract_reviews soup st w)))).
Proof.
  split.
  - intros u st w.
    destruct (fetch_page_cases env u st w) as (r & added & H & _).
    rewrite H. apply only_appends_push.
  - intros soup st w. rewrite extract_reviews_spec. apply only_appends_push.
Qed.

Lemma find_all_no_container soup :
  (forall e, In e (descendants soup) -> ~ is_review_container e) ->
  find_all soup "div" "review-item" = [].
Proof.
  intros H. unfold find_all.
  induction (descendants soup) as [| e l IH]; [ reflexivity | ].
  cbn [filter].
  destruct (matches "div" "review-item" e) eqn:E.
  - exfalso. apply (H e); [ now left | ].
    destruct e as [s | n classes cs]; [ discriminate | ].
    unfold matches in E. apply andb_true_iff in E. destruct E as [En Ec].
    apply String.eqb_eq in En.
    apply existsb_exists in Ec. destruct Ec as (x & Hin & Hx).
    apply String.eqb_eq in Hx. subst. now split.
  - apply IH. intros e' Hin. apply H. now right.
Qed.

(** C9: on a document without any review container, [extract_reviews]
    returns the empty list and appends nothing to the error log. *)
Theorem extract_reviews_no_container soup st w :
  (forall e, In e (descendants soup) -> ~ is_review_container e) ->
  extract_reviews soup st w = (Ok [], st, w).
Proof.
  intros H. rewrite extract_reviews_spec, (find_all_no_container soup H).
  cbn. now rewrite push_errors_nil.
Qed.

Lemma blank_has_no_container :
  forall e, In e (descendants Example.blank) -> ~ is_review_container e.
Proof.
  intros e Hin. cbn in Hin.
  repeat (destruct Hin as [<- | Hin];
          [ cbn; intros Hc; try contradiction;
            destruct Hc as [Hn _]; discriminate Hn | ]).
  destruct Hin.
Qed.

Lemma extract_reviews_no_container_witness :
  extract_reviews Example.blank Example.scraper Example.world
  = (Ok [], Example.scraper, Example.world).
Proof.
  apply (extract_reviews_no_container Example.blank Example.scraper
           Example.world).
  exact blank_has_no_container.
Defined.

(** C3: a container that misses exactly one of the six sub-fields gives
    no record and exactly one ["Failed to parse review: ..."] entry, the
    well-formed containers around it each give their record, in document
    order, and [extract_reviews] returns normally. *)
Theorem extract_reviews_isolates_partial_review soup before c behind st w :
  find_all soup "div" "review-item" = (before ++ c :: behind)%list ->
  missing_exactly_one c ->
  exists st',
    extract_reviews soup st w =
      (Ok (map record_of (filter well_formed (before ++ behind))), st', w)
    /\ errors st' =
         (errors st
          ++ map (fun _ => PARSE_FAILURE)
                 (filter (fun x => negb (well_formed x)) before)
          ++ [PARSE_FAILURE]
          ++ map (fun _ => PARSE_FAILURE)
                 (filter (fun x => negb (well_formed x)) behind))%list
    /\ reviews st' = reviews st.
Proof.
  intros Hfind Hone. apply missing_one_not_well_formed in Hone.
  eexists. rewrite extract_reviews_spec, Hfind.
  rewrite !filter_app. cbn [filter]. rewrite Hone. cbn [negb].
  split; [ reflexivity | ].
  split; [ | reflexivity ].
  cbn [errors push_errors]. rewrite map_app. reflexivity.
Qed.

Lemma extract_reviews_isolates_partial_review_witness :
  find_all Example.page "div" "review-item"
    = ([Example.complete] ++ Example.unrated :: [Example.complete])%list
  /\ missing_exactly_one Example.unrated
  /\ exists st',
       extract_reviews Example.page Example.scraper Example.world =
         (Ok [record_of Example.complete; record_of Example.complete],
          st', Example.world)
       /\ errors st' = [PARSE_FAILURE].
Proof.
  assert (Hfind : find_all Example.page "div" "review-item"
            = ([Example.complete] ++ Example.unrated
                 :: [Example.complete])%list) by reflexivity.
  assert (Hone : missing_exactly_one Example.unrated) by reflexivity.
  split; [ exact Hfind | split; [ exact Hone | ] ].
  destruct (extract_reviews_isolates_partial_review Example.page
              [Example.complete] Example.unrated [Example.complete]
              Example.scraper Example.world Hfind Hone)
    as (st' & Hrun & Herr & _).
  exists st'. split; [ exact Hrun | exact Herr ].
Defined.

(** *** The orchestrator *)

Lemma log_logs e w : log e w = logs [e] w.
Proof. reflexivity. Qed.

Lemma logs_logs l1 l2 w : logs l2 (logs l1 w) = logs (l1 ++ l2) w.
Proof. unfold logs; cbn. now rewrite app_assoc. Qed.

Lemma logs_nil w : logs [] w = w.
Proof. destruct w; unfold logs; cbn. now rewrite app_nil_r. Qed.

Lemma fetch_page_fails env u st w :
  fetch_fails (http env (now w) u (headers st)) ->
  exists cause,
    fetch_page env u st w =
      (Ok None, push_errors st [FETCH_FAILURE u cause],
       log (EvGet u (headers st) 10) w).
Proof.
  intros [[cause H] | [r [H Hs]]].
  - exists cause. now apply fetch_page_transport.
  - now apply (fetch_page_error_status env u st w r).
Qed.

Lemma time_sleep_ok env delay st w :
  pauses env delay ->
  time_sleep env delay st w = (Ok tt, st, log (EvSleep delay) w).
Proof.
  intros [Hc Hos]. unfold time_sleep. now rewrite Hc, Hos.
Qed.

(** [time.sleep] pauses or raises; it touches nothing else. *)
Lemma time_sleep_cases env delay st w :
  time_sleep env delay st w = (Ok tt, st, log (EvSleep delay) w)
  \/ exists e, time_sleep env delay st w = (Raise e, st, w).
Proof.
  unfold time_sleep. destruct (sleep_raises delay) as [e |].
  - right. now exists e.
  - destruct (os_sleep env (now w) delay) as [cause |].
    + right. now eexists.
    + now left.
Qed.

Lemma bind_run {A B} (m : M A) (k : A -> M B) st w a st' w' :
  m st w = (Ok a, st', w') -> bind m k st w = k a st' w'.
Proof. intros H. unfold bind. now rewrite H. Qed.

Lemma bind_raise {A B} (m : M A) (k : A -> M B) st w e st' w' :
  m st w = (Raise e, st', w') -> bind m k st w = (Raise e, st', w').
Proof. intros H. unfold bind. now rewrite H. Qed.

Lemma print_run line st w : print line st w = (Ok tt, st, logs [EvPrint line] w).
Proof. reflexivity. Qed.

(** What the [if soup:] block does to the local list and the state. *)
Lemma page_block_run (soup : option PageElement) i acc st w :
  exists acc' added evs,
    (match soup with
     | Some doc =>
         page_reviews <- extract_reviews doc ;;
         print ("Found " ++ Text.str_of_nat (List.length page_reviews)
                ++ " reviews on page " ++ Text.str_of_nat i) ;;;
         ret (acc ++ page_reviews)%list
     | None => ret acc
     end) st w = (Ok acc', push_errors st added, logs evs w)
    /\ filter is_get_or_sleep evs = []
    /\ (soup = None -> acc' = acc /\ added = [])
    /\ exists cs, acc' = (acc ++ map record_of cs)%list.
Proof.
  destruct soup as [doc |].
  - do 3 eexists. split; [ | split; [ | split; [ discriminate | ] ] ].
    + erewrite bind_run by apply extract_reviews_spec.
      erewrite bind_run by apply print_run.
      reflexivity.
    + reflexivity.
    + eexists. reflexivity.
  - exists acc, [], []. rewrite push_errors_nil, logs_nil.
    repeat split; try reflexivity.
    exists []. cbn. now rewrite app_nil_r.
Qed.

(** The same block, with what it yields named page by page. *)
Lemma page_block_exact (soup : option PageElement) i acc st w :
  exists evs,
    (match soup with
     | Some doc =>
         page_reviews <- extract_reviews doc ;;
         print ("Found " ++ Text.str_of_nat (List.length page_reviews)
                ++ " reviews on page " ++ Text.str_of_nat i) ;;;
         ret (acc ++ page_reviews)%list
     | None => ret acc
     end) st w
    = (Ok (acc ++ page_records soup)%list,
       push_errors st (match soup with
                       | Some _ => page_errors "" soup ""
                       | None => []
                       end),
       logs evs w)
    /\ filter is_get_or_sleep evs = [].
Proof.
  destruct soup as [doc |].
  - eexists. split.
    + erewrite bind_run by apply extract_reviews_spec.
      erewrite bind_run by apply print_run.
      reflexivity.
    + reflexivity.
  - exists []. unfold ret. cbn [page_records].
    now rewrite push_errors_nil, logs_nil, app_nil_r.
Qed.

(** [fetch_page], with what it led to in the words of [fetched]. *)
Lemma fetch_page_fetched env u st w :
  exists r cause,
    fetch_page env u st w =
      (r,
       push_errors st (match r with
                       | Ok None => [FETCH_FAILURE u cause]
                       | _ => []
                       end),
       log (EvGet u (headers st) 10) w)
    /\ (forall soup, r = Ok soup -> fetched env (headers st) u soup).
Proof.
  destruct (fetch_page_cases env u st w)
    as (r & added & H & Hnone & Hsome & Hraise & Hdoc).
  assert (Hf : forall soup, r = Ok soup -> fetched env (headers st) u soup).
  { intros soup ->. exists (now w). split; [ | now apply Hdoc ].
    destruct (fetch_escape env (headers st) (now w) u) as [e |] eqn:E;
      [ | reflexivity ].
    discriminate (proj2 (Hraise e) eq_refl). }
  destruct r as [[doc |] | e].
  - exists (Ok (Some doc)), "". rewrite (Hsome ltac:(discriminate)) in H.
    split; [ exact H | exact Hf ].
  - destruct (Hnone eq_refl) as (cause & ->).
    exists (Ok None), cause. split; [ exact H | exact Hf ].
  - exists (Raise e), "". rewrite (Hsome ltac:(discriminate)) in H.
    split; [ exact H | exact Hf ].
Qed.

(** The loop, whatever comes of it: the instance only gains errors and
    the world only gains events; when it returns, the requests and
    pauses are the expected ones and the result is made page by page. *)
Lemma scrape_loop_trace env delay :
  forall page_urls n i acc st w,
    i + List.length page_urls = S n ->
    exists r added evs,
      scrape_loop env n i page_urls delay acc st w =
        (r, push_errors st added, logs evs w)
      /\ (forall acc', r = Ok acc' ->
            filter is_get_or_sleep evs =
              requests_and_pauses (headers st) delay page_urls
            /\ exists pages,
                 List.length pages = List.length page_urls
                 /\ acc' = (acc ++ flat_map (fun p => page_records (fst p))
                                            pages)%list
                 /\ added = run_errors page_urls pages
                 /\ Forall2 (fun u p => fetched env (headers st) u (fst p))
                            page_urls pages).
Proof.
  induction page_urls as [| u rest IH]; intros n i acc st w Hlen.
  - exists (Ok acc), [], []. cbn [scrape_loop]. unfold ret.
    rewrite push_errors_nil, logs_nil. split; [ reflexivity | ].
    intros acc' [= <-]. split; [ reflexivity | ].
    exists []. cbn. rewrite app_nil_r.
    repeat split; [ constructor ].
  - cbn [scrape_loop]. cbn [List.length] in Hlen.
    erewrite bind_run by apply print_run.
    match goal with |- context [logs ?l w] => set (w1 := logs l w) end.
    destruct (fetch_page_fetched env u st w1) as (r1 & cause & Hf & Hfd).
    destruct r1 as [soup | e]; cycle 1.
    { erewrite bind_raise by exact Hf.
      exists (Raise e), []. eexists. unfold w1.
      rewrite log_logs, logs_logs. split; [ reflexivity | discriminate ]. }
    erewrite bind_run by exact Hf.
    match goal with
    | |- context [push_errors st ?a] => set (added := a) in *
    end.
    destruct (page_block_exact soup i acc (push_errors st added)
                (log (EvGet u (headers st) 10) w1)) as (evs1 & Hb & Hevs1).
    erewrite bind_run by exact Hb.
    rewrite push_errors_app.
    assert (Hadded :
      (added ++ match soup with
                | Some _ => page_errors "" soup ""
                | None => []
                end)%list = page_errors u soup cause).
    { subst added. destruct soup; reflexivity. }
    rewrite Hadded.
    set (st2 := push_errors st (page_errors u soup cause)).
    set (w2 := logs evs1 (log (EvGet u (headers st) 10) w1)).
    assert (Hs :
      (exists sl,
         (if (i <? n)%nat then time_sleep env delay else ret tt) st2 w2
         = (Ok tt, st2, logs sl w2)
         /\ sl = (if (i <? n)%nat then [EvSleep delay] else []))
      \/ exists e,
           (if (i <? n)%nat then time_sleep env delay else ret tt) st2 w2
           = (Raise e, st2, w2)).
    { destruct (i <? n)%nat.
      - destruct (time_sleep_cases env delay st2 w2) as [H | [e H]].
        + left. exists [EvSleep delay]. now rewrite H, log_logs.
        + right. now exists e.
      - left. exists []. unfold ret. now rewrite logs_nil. }
    destruct Hs as [(sl & Hs & Hsl) | (e & Hs)]; cycle 1.
    { erewrite bind_raise by exact Hs.
      exists (Raise e). do 2 eexists. unfold st2, w2, w1.
      rewrite !log_logs, !logs_logs. split; [ reflexivity | discriminate ]. }
    erewrite bind_run by exact Hs.
    destruct (IH n (S i) (acc ++ page_records soup)%list st2 (logs sl w2))
      as (r & added' & evs & Hrun & Hok); [ lia | ].
    rewrite Hrun. exists r. do 2 eexists. unfold st2, w2, w1.
    rewrite push_errors_app, !log_logs, !logs_logs.
    split; [ reflexivity | ].
    intros acc' Hr. destruct (Hok acc' Hr) as (Hevs & pages & Hl & Ha & Hadd & Hall).
    split.
    + rewrite !filter_app, Hevs1, Hevs, Hsl.
      cbn [app filter is_get_or_sleep requests_and_pauses].
      destruct rest as [| u2 rest2].
      * cbn [List.length] in Hlen.
        replace (i <? n)%nat with false
          by (symmetry; apply Nat.ltb_ge; lia).
        reflexivity.
      * cbn [List.length] in Hlen.
        replace (i <? n)%nat with true
          by (symmetry; apply Nat.ltb_lt; lia).
        reflexivity.
    + exists ((soup, cause) :: pages).
      split; [ cbn; now rewrite Hl | ].
      split; [ rewrite Ha, <- app_assoc; reflexivity | ].
      split; [ rewrite Hadd; reflexivity | ].
      constructor; [ apply Hfd; reflexivity | exact Hall ].
Qed.

(** With a delay [time.sleep] accepts and fetches that return, the loop
    returns. *)
Lemma scrape_loop_returns env delay (Hd : pauses env delay) :
  forall page_urls n i acc st w,
    fetches_return env (headers st) page_urls ->
    exists acc' st' w',
      scrape_loop env n i page_urls delay acc st w = (Ok acc', st', w').
Proof.
  induction page_urls as [| u rest IH]; intros n i acc st w Hret.
  - do 3 eexists. reflexivity.
  - cbn [scrape_loop].
    erewrite bind_run by apply print_run.
    match goal with |- context [logs ?l w] => set (w1 := logs l w) end.
    destruct (fetch_page_returns env u st w1) as (soup & added & Hf & _).
    { apply Hret. now left. }
    erewrite bind_run by exact Hf.
    destruct (page_block_run soup i acc (push_errors st added)
                (log (EvGet u (headers st) 10) w1))
      as (acc1 & added1 & evs1 & Hb & _).
    erewrite bind_run by exact Hb.
    assert (Hs : exists w2,
      (if (i <? n)%nat then time_sleep env delay else ret tt)
        (push_errors (push_errors st added) added1)
        (logs evs1 (log (EvGet u (headers st) 10) w1))
      = (Ok tt, push_errors (push_errors st added) added1, w2)).
    { destruct (i <? n)%nat.
      - rewrite time_sleep_ok by exact Hd. now eexists.
      - eexists. reflexivity. }
    destruct Hs as (w2 & Hs).
    erewrite bind_run by exact Hs.
    apply IH. intros t u' Hin. apply Hret. now right.
Qed.

Lemma scrape_loop_all_fail env delay (Hd : pauses env delay) :
  forall page_urls n i acc st w,
    i + List.length page_urls = S n ->
    (forall t u, In u page_urls -> fetch_fails (http env t u (headers st))) ->
    exists causes evs,
      List.length causes = List.length page_urls
      /\ scrape_loop env n i page_urls delay acc st w =
           (Ok acc, push_errors st (fetch_failures page_urls causes),
            logs evs w).
Proof.
  induction page_urls as [| u rest IH]; intros n i acc st w Hlen Hfail.
  - exists [], []. split; [ reflexivity | ].
    cbn. unfold ret. now rewrite push_errors_nil, logs_nil.
  - cbn [scrape_loop]. cbn [List.length] in Hlen.
    erewrite bind_run by apply print_run.
    match goal with |- context [logs ?l w] => set (w1 := logs l w) end.
    destruct (fetch_page_fails env u st w1) as (cause & Hf).
    { apply Hfail. now left. }
    erewrite bind_run by exact Hf.
    erewrite bind_run by reflexivity.
    assert (Hsleep : exists evs1,
      (if (i <? n)%nat then time_sleep env delay else ret tt)
        (push_errors st [FETCH_FAILURE u cause])
        (log (EvGet u (headers st) 10) w1)
      = (Ok tt, push_errors st [FETCH_FAILURE u cause], logs evs1 w)).
    { destruct (i <? n)%nat.
      - rewrite time_sleep_ok by exact Hd. eexists. unfold w1.
        now rewrite !log_logs, !logs_logs.
      - eexists. unfold ret, w1. now rewrite !log_logs, !logs_logs. }
    destruct Hsleep as (evs1 & Hs).
    erewrite bind_run by exact Hs.
    destruct (IH n (S i) acc (push_errors st [FETCH_FAILURE u cause])
                (logs evs1 w)) as (causes & evs & Hc & Hrun).
    { lia. }
    { intros t u' Hin. apply Hfail. now right. }
    exists (cause :: causes). eexists.
    split; [ cbn; now rewrite Hc | ].
    rewrite Hrun, push_errors_app, logs_logs. reflexivity.
Qed.

(** A failing fetch is one the handler takes care of. *)
Lemma failing_fetches_return env hdrs page_urls :
  (forall t u, In u page_urls -> fetch_fails (http env t u hdrs)) ->
  fetches_return env hdrs page_urls.
Proof.
  intros Hfail t u Hin. unfold fetch_escape.
  destruct (Hfail t u Hin) as [[cause ->] | (r & -> & Hs)];
    [ reflexivity | ].
  apply error_status_dec in Hs. now rewrite Hs.
Qed.

(** *** Claims about the orchestrator *)

(** C1 (as amended): when [time.sleep] accepts the delay, a run of
    [scrape_multiple_pages] returns normally for every list of URLs
    whose fetches raise nothing but [RequestException] (from
    [requests.get]) and whose served bodies the parser accepts; when
    every fetch fails at the transport level or with a 4xx or 5xx
    status it returns the empty list and the error log gains one
    ["Failed to fetch {url}: {cause}"] entry per URL, in list order. *)
Theorem scrape_multiple_pages_never_fatal env page_urls delay st w :
  pauses env delay ->
  (fetches_return env (headers st) page_urls ->
   exists rs st' w',
     scrape_multiple_pages env page_urls delay st w = (Ok rs, st', w'))
  /\ ((forall t u, In u page_urls ->
                   fetch_fails (http env t u (headers st))) ->
      exists causes st' w',
        List.length causes = List.length page_urls
        /\ scrape_multiple_pages env page_urls delay st w = (Ok [], st', w')
        /\ reviews st' = []
        /\ errors st' =
             (errors st ++ fetch_failures page_urls causes)%list).
Proof.
  intros Hd. split.
  - intros Hret.
    destruct (scrape_loop_returns env delay Hd page_urls
                (List.length page_urls) 1 [] st w Hret)
      as (acc & st1 & w1 & Hrun).
    unfold scrape_multiple_pages.
    erewrite bind_run by exact Hrun.
    erewrite bind_run by reflexivity.
    do 3 eexists. reflexivity.
  - intros Hfail.
    destruct (scrape_loop_all_fail env delay Hd page_urls
                (List.length page_urls) 1 [] st w eq_refl Hfail)
      as (causes & evs & Hlen & Hrun).
    exists causes. unfold scrape_multiple_pages.
    erewrite bind_run by exact Hrun.
    erewrite bind_run by reflexivity.
    do 2 eexists. split; [ exact Hlen | ].
    split; [ reflexivity | ]. split; reflexivity.
Qed.

Lemma unreachable_pages_fail t u :
  In u unreachable_pages ->
  fetch_fails (http Example.env t u (headers Example.scraper)).
Proof.
  intros [<- | [<- | [<- | []]]].
  - right. eexists. split; [ reflexivity | cbn; lia ].
  - right. eexists. split; [ reflexivity | cbn; lia ].
  - left. eexists. reflexivity.
Qed.

Lemma one_second_pauses : pauses Example.env 1.
Proof. split; [ reflexivity | intros t; reflexivity ]. Qed.

Lemma scrape_multiple_pages_never_fatal_witness :
  pauses Example.env 1
  /\ exists causes st' w',
       List.length causes = 3
       /\ scrape_multiple_pages Example.env unreachable_pages 1
            Example.scraper Example.world = (Ok [], st', w')
       /\ reviews st' = []
       /\ errors st' = fetch_failures unreachable_pages causes.
Proof.
  split; [ exact one_second_pauses | ].
  exact (proj2 (scrape_multiple_pages_never_fatal Example.env
                  unreachable_pages 1 Example.scraper Example.world
                  one_second_pauses)
               unreachable_pages_fail).
Defined.

(** C1 (as stated) fails: with a negative delay the first pause raises,
    also when every fetch fails; and with a delay of one second a URL
    that the URL parser refuses makes the run raise. *)
Lemma scrape_multiple_pages_can_raise :
  ~ (forall env page_urls delay st w,
       (forall t u, In u page_urls ->
                    fetch_fails (http env t u (headers st))) ->
       exists rs st' w',
         scrape_multiple_pages env page_urls delay st w = (Ok rs, st', w'))
  /\ ~ (forall env page_urls st w,
          exists rs st' w',
            scrape_multiple_pages env page_urls 1 st w = (Ok rs, st', w')).
Proof.
  split; intros claim.
  - destruct (claim Example.env [Example.page2; Example.gone] (-1)%Q
                Example.scraper Example.world)
      as (rs & st' & w' & Hrun).
    + intros t u Hin. apply unreachable_pages_fail.
      destruct Hin as [<- | [<- | []]]; [ now left | right; now left ].
    + vm_compute in Hrun. discriminate Hrun.
  - destruct (claim hostile [malformed] Example.scraper Example.world)
      as (rs & st' & w' & Hrun).
    vm_compute in Hrun. discriminate Hrun.
Qed.

Lemma pauses_count hdrs delay page_urls :
  List.length (filter is_sleep (requests_and_pauses hdrs delay page_urls))
  = List.length page_urls - 1.
Proof.
  induction page_urls as [| u rest IH]; [ reflexivity | ].
  cbn [requests_and_pauses filter is_sleep List.length].
  destruct rest as [| u2 rest2]; [ reflexivity | ].
  cbn [filter is_sleep List.length] in *. rewrite IH. lia.
Qed.

Lemma filter_sleep_skeleton evs :
  filter is_sleep (filter is_get_or_sleep evs) = filter is_sleep evs.
Proof.
  induction evs as [| e l IH]; [ reflexivity | ].
  destruct e; cbn; now rewrite ?IH.
Qed.

(** A run, whatever comes of it, seen from outside. *)
Lemma scrape_multiple_pages_trace env page_urls delay st w :
  exists r st' evs,
    scrape_multiple_pages env page_urls delay st w = (r, st', logs evs w)
    /\ (forall rs, r = Ok rs ->
          filter is_get_or_sleep evs =
            requests_and_pauses (headers st) delay page_urls
          /\ exists pages,
               List.length pages = List.length page_urls
               /\ rs = flat_map (fun p => page_records (fst p)) pages
               /\ reviews st' = rs
               /\ errors st' = (errors st ++ run_errors page_urls pages)%list
               /\ Forall2 (fun u p => fetched env (headers st) u (fst p))
                          page_urls pages).
Proof.
  destruct (scrape_loop_trace env delay page_urls (List.length page_urls)
              1 [] st w eq_refl) as (r & added & evs & Hrun & Hok).
  unfold scrape_multiple_pages. destruct r as [acc | e].
  - erewrite bind_run by exact Hrun.
    erewrite bind_run by reflexivity. unfold ret.
    do 3 eexists. split; [ reflexivity | ].
    intros rs [= <-].
    destruct (Hok acc eq_refl) as (Hevs & pages & Hl & Ha & Hadd & Hall).
    split; [ exact Hevs | ]. exists pages.
    split; [ exact Hl | ]. split; [ exact Ha | ].
    split; [ reflexivity | ].
    split; [ cbn; now rewrite Hadd | exact Hall ].
  - erewrite bind_raise by exact Hrun.
    do 3 eexists. split; [ reflexivity | discriminate ].
Qed.

(** C5 (as amended): every run over N URLs that completes has paused
    exactly N-1 times, once after each URL but the last, whether the
    fetch of that URL succeeded or not; and a run completes when
    [time.sleep] accepts the delay and no fetch raises past the handler
    of [fetch_page]. *)
Theorem scrape_multiple_pages_pauses env page_urls delay st w :
  (forall rs st' w',
     scrape_multiple_pages env page_urls delay st w = (Ok rs, st', w') ->
     exists evs,
       w' = logs evs w
       /\ List.length (filter is_sleep evs) = List.length page_urls - 1
       /\ filter is_get_or_sleep evs =
            requests_and_pauses (headers st) delay page_urls)
  /\ (pauses env delay ->
      fetches_return env (headers st) page_urls ->
      exists rs st' w',
        scrape_multiple_pages env page_urls delay st w = (Ok rs, st', w')).
Proof.
  split.
  - intros rs st' w' Hrun.
    destruct (scrape_multiple_pages_trace env page_urls delay st w)
      as (r & st1 & evs & H & Hok).
    rewrite H in Hrun. injection Hrun as -> <- <-.
    destruct (Hok rs eq_refl) as (Hevs & _).
    exists evs. split; [ reflexivity | ]. split; [ | exact Hevs ].
    now rewrite <- filter_sleep_skeleton, Hevs, pauses_count.
  - intros Hd Hret.
    destruct (scrape_loop_returns env delay Hd page_urls
                (List.length page_urls) 1 [] st w Hret)
      as (acc & st1 & w1 & Hrun).
    unfold scrape_multiple_pages.
    erewrite bind_run by exact Hrun.
    erewrite bind_run by reflexivity.
    do 3 eexists. reflexivity.
Qed.

Lemma example_pages_return :
  fetches_return Example.env (headers Example.scraper)
    [Example.page1; Example.page2; Example.denied].
Proof.
  intros t u [<- | [<- | [<- | []]]]; reflexivity.
Qed.

Lemma scrape_multiple_pages_pauses_witness :
  exists rs st' evs,
    scrape_multiple_pages Example.env
      [Example.page1; Example.page2; Example.denied] 2
      Example.scraper Example.world
    = (Ok rs, st', logs evs Example.world)
    /\ List.length (filter is_sleep evs) = 2.
Proof.
  assert (Hd : pauses Example.env 2)
    by (split; [ reflexivity | intros t; reflexivity ]).
  destruct (scrape_multiple_pages_pauses Example.env
              [Example.page1; Example.page2; Example.denied] 2
              Example.scraper Example.world) as (Hcount & Hdone).
  destruct (Hdone Hd example_pages_return) as (rs & st' & w' & Hrun).
  destruct (Hcount rs st' w' Hrun) as (evs & -> & Hlen & _).
  exists rs, st', evs. split; [ exact Hrun | exact Hlen ].
Defined.

(** C5 (as stated) fails: with a negative delay the run over three URLs
    stops at its first pause, and pauses neither there nor later; with a
    delay of one second, a first page whose body the parser rejects ends
    the run over two URLs before any pause. *)
Lemma run_cut_short_pauses_less :
  ~ (forall env page_urls delay st w,
       exists r st' evs,
         scrape_multiple_pages env page_urls delay st w
         = (r, st', logs evs w)
         /\ List.length (filter is_sleep evs) = List.length page_urls - 1)
  /\ ~ (forall env page_urls st w,
          exists r st' evs,
            scrape_multiple_pages env page_urls 1 st w
            = (r, st', logs evs w)
            /\ List.length (filter is_sleep evs)
               = List.length page_urls - 1).
Proof.
  split; intros claim.
  - destruct (claim Example.env
                [Example.page1; Example.page2; Example.denied] (-1)%Q
                Example.scraper Example.world)
      as (r & st' & evs & Hrun & Hlen).
    vm_compute in Hrun. injection Hrun as _ _ <-.
    vm_compute in Hlen. discriminate Hlen.
  - destruct (claim hostile [Example.page2; Example.page1]
                Example.scraper Example.world)
      as (r & st' & evs & Hrun & Hlen).
    vm_compute in Hrun. injection Hrun as _ _ <-.
    vm_compute in Hlen. discriminate Hlen.
Qed.

(** *** Empty accumulator *)

(** C8: with no accumulated review, both exporters return [False] and
    write no file, and [get_statistics] returns the empty mapping,
    whatever the error log holds. *)
Theorem empty_accumulator env csv_name json_name st w :
  reviews st = [] ->
  export_to_csv env csv_name st w
    = (Ok false, st, logs [EvPrint "No reviews to export"] w)
  /\ export_to_json env json_name st w
     = (Ok false, st, logs [EvPrint "No reviews to export"] w)
  /\ files (logs [EvPrint "No reviews to export"] w) = files w
  /\ get_statistics env st w = (Ok [], st, w).
Proof.
  intros H.
  unfold export_to_csv, export_to_json, get_statistics, get_self, bind.
  rewrite H. repeat split; reflexivity.
Qed.

Lemma empty_accumulator_witness :
  errors failed_scraper <> []
  /\ export_to_csv Example.env "reviews.csv" failed_scraper Example.world
     = (Ok false, failed_scraper,
        logs [EvPrint "No reviews to export"] Example.world)
  /\ get_statistics Example.env failed_scraper Example.world
     = (Ok [], failed_scraper, Example.world).
Proof.
  split; [ discriminate | ].
  destruct (empty_accumulator Example.env "reviews.csv" "reviews.json"
              failed_scraper Example.world eq_refl) as (Hc & _ & _ & Hs).
  split; [ exact Hc | exact Hs ].
Defined.

(** *** Lifetime of the accumulator *)

Lemma time_sleep_frame env delay st w :
  exists r w', time_sleep env delay st w = (r, st, w').
Proof.
  destruct (time_sleep_cases env delay st w) as [H | [e H]];
    rewrite H; do 2 eexists; reflexivity.
Qed.

(** The loop touches the instance only by appending errors, also when a
    fetch or a pause makes it raise. *)
Lemma scrape_loop_frame env delay :
  forall page_urls n i acc st w,
    exists r added w',
      scrape_loop env n i page_urls delay acc st w
      = (r, push_errors st added, w')
      /\ forall acc', r = Ok acc' ->
                      exists cs, acc' = (acc ++ map record_of cs)%list.
Proof.
  induction page_urls as [| u rest IH]; intros n i acc st w.
  - exists (Ok acc), [], w. cbn. unfold ret. rewrite push_errors_nil.
    split; [ reflexivity | ].
    intros acc' [= <-]. exists []. cbn. now rewrite app_nil_r.
  - cbn [scrape_loop].
    erewrite bind_run by apply print_run.
    match goal with |- context [logs ?l w] => set (w1 := logs l w) end.
    destruct (fetch_page_cases env u st w1) as (r1 & added & Hf & _).
    destruct r1 as [soup | e1]; cycle 1.
    { erewrite bind_raise by exact Hf. do 3 eexists.
      split; [ reflexivity | discriminate ]. }
    erewrite bind_run by exact Hf.
    destruct (page_block_run soup i acc (push_errors st added)
                (log (EvGet u (headers st) 10) w1))
      as (acc1 & added1 & evs1 & Hb & _ & _ & cs1 & Hcs1).
    erewrite bind_run by exact Hb.
    rewrite push_errors_app.
    assert (Hs : exists r w2,
      (if (i <? n)%nat then time_sleep env delay else ret tt)
        (push_errors st (added ++ added1))
        (logs evs1 (log (EvGet u (headers st) 10) w1))
      = (r, push_errors st (added ++ added1), w2)).
    { destruct (i <? n)%nat; [ apply time_sleep_frame | ].
      do 2 eexists. reflexivity. }
    destruct Hs as ([[] | e] & w2 & Hs).
    + erewrite bind_run by exact Hs.
      destruct (IH n (S i) acc1 (push_errors st (added ++ added1)) w2)
        as (r & added' & w' & Hrun & Hshape).
      rewrite Hrun, push_errors_app. do 3 eexists.
      split; [ reflexivity | ].
      intros acc' Hr. destruct (Hshape acc' Hr) as (cs & ->).
      exists (cs1 ++ cs)%list. subst acc1.
      now rewrite map_app, app_assoc.
    + erewrite bind_raise by exact Hs. do 3 eexists.
      split; [ reflexivity | discriminate ].
Qed.

(** A run either raises, leaving the stored reviews as they were, or
    returns a list and stores that very list. *)
Lemma scrape_multiple_pages_frame env page_urls delay st w :
  exists added w',
    (exists e, scrape_multiple_pages env page_urls delay st w
               = (Raise e, push_errors st added, w'))
    \/ (exists cs,
          scrape_multiple_pages env page_urls delay st w
          = (Ok (map record_of cs),
             with_reviews (push_errors st added) (map record_of cs), w')).
Proof.
  destruct (scrape_loop_frame env delay page_urls (List.length page_urls)
              1 [] st w) as ([rs | e] & added & w' & Hrun & Hshape);
    exists added, w'; unfold scrape_multiple_pages.
  - right. destruct (Hshape rs eq_refl) as (cs & ->). exists cs.
    erewrite bind_run by exact Hrun.
    erewrite bind_run by reflexivity. reflexivity.
  - left. exists e. erewrite bind_raise by exact Hrun. reflexivity.
Qed.

Lemma with_open_w_frame env {A} filename (body : result A * string) st w :
  exists r w', with_open_w env filename body st w = (r, st, w').
Proof.
  unfold with_open_w. destruct (open_w env (now w) filename);
    do 2 eexists; reflexivity.
Qed.

(** An exporter built as [try: with open ...; print; return True
    except Exception: log; return False] only appends to the errors. *)
Lemma export_block_frame env {A} filename (body : result A * string)
    line (label : string) st w :
  exists r added w',
    try_except
      (with_open_w env filename body ;;; print line ;;; ret true)
      is_Exception
      (fun e => errors_append (label ++ str_exn e) ;;; ret false) st w
    = (r, push_errors st added, w').
Proof.
  unfold try_except.
  destruct (with_open_w_frame env filename body st w) as ([a | e] & w' & H).
  - erewrite bind_run by exact H.
    erewrite bind_run by apply print_run. unfold ret.
    exists (Ok true), []. eexists. now rewrite push_errors_nil.
  - erewrite bind_raise by exact H. cbn [is_Exception].
    erewrite bind_run by reflexivity. unfold ret.
    do 3 eexists. reflexivity.
Qed.

Lemma export_to_csv_frame env filename st w :
  exists r added w',
    export_to_csv env filename st w = (r, push_errors st added, w').
Proof.
  unfold export_to_csv. erewrite bind_run by reflexivity.
  destruct (reviews st) as [| first rest].
  - erewrite bind_run by apply print_run. unfold ret.
    exists (Ok false), []. eexists. now rewrite push_errors_nil.
  - apply export_block_frame.
Qed.

Lemma export_to_json_frame env filename st w :
  exists r added w',
    export_to_json env filename st w = (r, push_errors st added, w').
Proof.
  unfold export_to_json. erewrite bind_run by reflexivity.
  destruct (reviews st) as [| first rest].
  - erewrite bind_run by apply print_run. unfold ret.
    exists (Ok false), []. eexists. now rewrite push_errors_nil.
  - apply export_block_frame.
Qed.

Lemma get_statistics_frame env st w :
  exists r w', get_statistics env st w = (r, st, w').
Proof.
  unfold get_statistics. erewrite bind_run by reflexivity.
  destruct (reviews st); do 2 eexists; reflexivity.
Qed.

(** Every call keeps [base_url] and [headers], and appends to the
    errors; the stored reviews stay, unless the call is a completed run
    of [scrape_multiple_pages], which stores what it returns. *)
Lemma perform_frame env c st w :
  exists added rs,
    fst (perform env c st w) = with_reviews (push_errors st added) rs
    /\ (rs = reviews st
        \/ exists page_urls delay st' w',
             c = CallScrapeMultiplePages page_urls delay
             /\ scrape_multiple_pages env page_urls delay st w
                = (Ok rs, st', w')).
Proof.
  assert (Hsame : forall added,
            push_errors st added
            = with_reviews (push_errors st added) (reviews st))
    by reflexivity.
  destruct c as [u | soup | page_urls delay | f | f |]; cbn [perform].
  - destruct (fetch_page_cases env u st w) as (r & added & H & _).
    rewrite H. exists added, (reviews st). split; [ apply Hsame | now left ].
  - rewrite extract_reviews_spec. do 2 eexists.
    split; [ apply Hsame | now left ].
  - destruct (scrape_multiple_pages_frame env page_urls delay st w)
      as (added & w' & [[e H] | [cs H]]).
    + rewrite H. exists added, (reviews st).
      split; [ apply Hsame | now left ].
    + rewrite H. exists added, (map record_of cs).
      split; [ reflexivity | ].
      right. do 4 eexists. split; [ reflexivity | exact H ].
  - destruct (export_to_csv_frame env f st w) as (r & added & w' & H).
    rewrite H. exists added, (reviews st). split; [ apply Hsame | now left ].
  - destruct (export_to_json_frame env f st w) as (r & added & w' & H).
    rewrite H. exists added, (reviews st). split; [ apply Hsame | now left ].
  - destruct (get_statistics_frame env st w) as (r & w' & H).
    rewrite H. exists [], (reviews st).
    rewrite push_errors_nil. split; [ now destruct st | now left ].
Qed.


(** *** Runs do not read the stored reviews *)









(** *** Claim about the accumulator *)



(** *** CSV export *)





Lemma read_file_written name data w :
  read_file (logs [] (write_file name data w)) name = Some data.
Proof.
  unfold read_file, write_file, logs. cbn [files Dict.get].
  now rewrite String.eqb_refl.
Qed.

(** **** Reading back what the writer wrote *)


Lemma append_empty_r (a : string) : a ++ "" = a.
Proof. induction a as [| x a IH]; cbn; [ reflexivity | now rewrite IH ]. Qed.














(** **** The exporter *)




Lemma record_of_keys c : Dict.keys (record_of c) = REVIEW_FIELDS.
Proof. reflexivity. Qed.

Lemma record_of_wf c : Dict.wf (record_of c).
Proof.
  unfold Dict.wf. rewrite record_of_keys.
  repeat constructor; cbn; intuition discriminate.
Qed.

(** What a completed run stores are extracted records: each has the six
    fields, once each and in the order of the source. *)
Lemma run_stores_extracted_records env page_urls delay st w rs st' w' :
  scrape_multiple_pages env page_urls delay st w = (Ok rs, st', w') ->
  reviews st' = rs
  /\ Forall (fun r => Dict.keys r = REVIEW_FIELDS /\ Dict.wf r) rs.
Proof.
  intros Hrun.
  destruct (scrape_multiple_pages_frame env page_urls delay st w)
    as (added & w2 & [[e H] | [cs H]]); rewrite H in Hrun;
    [ discriminate | ].
  injection Hrun as <- <- <-. split; [ reflexivity | ].
  apply Forall_forall. intros r Hr. apply in_map_iff in Hr.
  destruct Hr as (c & <- & _).
  split; [ apply record_of_keys | apply record_of_wf ].
Qed.



(** *** JSON export *)

(** **** Strings *)







































(** **** The exporter *)




Lemma scraped_not_empty : reviews scraped <> [].
Proof. discriminate. Qed.


(** *** The model at work *)

(** A negative delay makes the first pause raise: the run stops after
    the first page and stores nothing. *)
Example negative_delay_raises :
  let '(r, st', _) :=
    scrape_multiple_pages Example.env [Example.page1; Example.page2] (-1)
      Example.scraper Example.world in
  r = Raise (ValueError "sleep length must be non-negative")
  /\ reviews st' = [].
Proof. split; reflexivity. Qed.

(** A delay of ten thousand million seconds is too large for the clock:
    the first pause raises [OverflowError]. *)
Example huge_delay_raises :
  fst (fst (scrape_multiple_pages Example.env
              [Example.page1; Example.page2] (inject_Z (10 ^ 10))
              Example.scraper Example.world))
  = Raise (OverflowError "timestamp too large to convert to C _PyTime_t").
Proof. reflexivity. Qed.

(** A URL the URL parser refuses: [LocationParseError] is not a
    [RequestException] and goes through [fetch_page] and the run; so
    does the parser's refusal of a served body. *)
Example refused_url_escapes :
  fst (fst (fetch_page hostile malformed Example.scraper Example.world))
  = Raise (LocationParseError
             "Failed to parse: 'a..b', label empty or too long")
  /\ fst (fst (scrape_multiple_pages hostile [Example.page2] 1
                 Example.scraper Example.world))
     = Raise (ParserRejectedMarkup PARSER_REJECTION).
Proof. split; reflexivity. Qed.

(** Page 1 is served and page 2 answers 500: the reviews of page 1 are
    stored and the log holds the failure of page 2. *)
Example one_page_served_one_failed :
  let '(r, st', _) :=
    scrape_multiple_pages Example.env [Example.page1; Example.page2] 1
      Example.scraper Example.world in
  r = Ok [record_of Example.complete; record_of Example.complete]
  /\ errors st' =
       [PARSE_FAILURE;
        FETCH_FAILURE Example.page2
          ("500 Server Error: Internal Server Error for url: "
           ++ Example.page2)].
Proof. split; reflexivity. Qed.

(** White space around a sub-field is trimmed. *)
Example title_is_trimmed :
  Dict.get (record_of Example.complete) "title" = Some "Solid laptop".
Proof. reflexivity. Qed.

(** A record with a key outside the header stops the CSV export: the
    rows before it are in the file, the call returns [False] and the
    error is logged. *)
Example export_to_csv_unexpected_key :
  let '(r, st', w') :=
    export_to_csv Example.env "reviews.csv" uneven_scraper Example.world in
  r = Ok false
  /\ errors st' =
       ["Failed to export CSV: dict contains fields not in fieldnames: 'verified'"]
  /\ read_file w' "reviews.csv"
     = Some ("title" ++ Csv.lineterminator ++ "A" ++ Csv.lineterminator).
Proof. repeat split; reflexivity. Qed.

(** Fields holding a delimiter, a quote or a line break are written in
    quotes, and read back as they were. *)
Example quoted_fields_read_back :
  Csv.row ["a,b"; "say " ++ String Text.dquote "hi"; "plain"]
  = String Text.dquote "a,b" ++ String Text.dquote ","
    ++ String Text.dquote "say "
    ++ String Text.dquote (String Text.dquote "hi")
    ++ String Text.dquote ",plain" ++ Csv.lineterminator
  /\ Csv.reader
       (Csv.row ["a,b"; "say " ++ String Text.dquote "hi"; "plain"]
        ++ Csv.row [String Text.LF ""] ++ Csv.row [""] ++ Csv.row [])
     = Some [["a,b"; "say " ++ String Text.dquote "hi"; "plain"];
             [String Text.LF ""]; [""]; []].
Proof. split; reflexivity. Qed.

(** A file that cannot be opened: nothing is written and the error is
    logged. *)
Example export_to_json_unwritable :
  let '(r, st', w') :=
    export_to_json Example.env "" scraped scraped_world in
  r = Ok false
  /\ errors st' =
       (errors scraped
        ++ ["Failed to export JSON: [Errno 2] No such file or directory: ''"])%list
  /\ files w' = files scraped_world.
Proof. repeat split; reflexivity. Qed.

(** ** Further properties of the code *)

(** *** Trimming *)

Lemma lstrip_clean l : starts_clean (Text.lstrip_chars l).
Proof.
  induction l as [| c l IH]; [ exact I | ].
  cbn [Text.lstrip_chars]. destruct (Text.isspace c) eqn:E; [ exact IH | ].
  exact E.
Qed.

Lemma lstrip_suffix l : exists p, l = (p ++ Text.lstrip_chars l)%list.
Proof.
  induction l as [| c l (p & IH)]; [ now exists [] | ].
  cbn [Text.lstrip_chars]. destruct (Text.isspace c).
  - exists (c :: p). cbn. now rewrite <- IH.
  - now exists [].
Qed.

Lemma lstrip_fixed l : starts_clean l -> Text.lstrip_chars l = l.
Proof.
  destruct l as [| c l]; [ reflexivity | ].
  cbn. now intros ->.
Qed.

(** The characters [strip] keeps start and end without white space. *)
Lemma strip_chars_clean l :
  let kept := rev (Text.lstrip_chars (rev (Text.lstrip_chars l))) in
  starts_clean kept /\ starts_clean (rev kept).
Proof.
  cbn zeta. split.
  - pose proof (lstrip_clean l) as Hc.
    destruct (lstrip_suffix (rev (Text.lstrip_chars l))) as (p & Hp).
    apply (f_equal (@rev ascii)) in Hp.
    rewrite rev_involutive, rev_app_distr in Hp.
    destruct (rev (Text.lstrip_chars (rev (Text.lstrip_chars l))))
      as [| c k]; [ exact I | ].
    rewrite Hp in Hc. exact Hc.
  - rewrite rev_involutive. apply lstrip_clean.
Qed.

Lemma strip_trimmed s : trimmed (Text.strip s).
Proof.
  unfold trimmed, Text.strip.
  rewrite list_ascii_of_string_of_list_ascii.
  apply strip_chars_clean.
Qed.

Lemma strip_of_trimmed s : trimmed s -> Text.strip s = s.
Proof.
  intros [Hhead Htail]. unfold Text.strip.
  rewrite (lstrip_fixed _ Hhead), (lstrip_fixed _ Htail), rev_involutive.
  apply string_of_list_ascii_of_string.
Qed.

(** X1: [str.strip()] as the extractor uses it: the result neither
    starts nor ends with white space, a second trim changes nothing, and
    a text without white space around it is returned as it is. *)
Theorem strip_trims_both_ends s :
  trimmed (Text.strip s)
  /\ Text.strip (Text.strip s) = Text.strip s
  /\ (trimmed s -> Text.strip s = s).
Proof.
  split; [ apply strip_trimmed | ].
  split; [ apply strip_of_trimmed, strip_trimmed | apply strip_of_trimmed ].
Qed.

(** *** The fetcher *)

Lemma fetch_escape_not_handled env hdrs t u e :
  fetch_escape env hdrs t u = Some e -> is_RequestException e = false.
Proof.
  unfold fetch_escape.
  destruct (http env t u hdrs) as [cause | resp | e'].
  - discriminate.
  - destruct ((400 <=? status_code resp) && (status_code resp <? 600))%nat;
      [ discriminate | ].
    destruct (html_parser env (content resp)) as [doc | e'];
      [ discriminate | ].
    destruct (is_RequestException e') eqn:E; [ discriminate | ].
    now intros [= <-].
  - destruct (is_RequestException e') eqn:E; [ discriminate | ].
    now intros [= <-].
Qed.

Lemma served_document_parsed env hdrs t u doc :
  served_document env hdrs t u = Some doc ->
  exists resp,
    http env t u hdrs = Responded resp
    /\ ~ 400 <= status_code resp < 600
    /\ html_parser env (content resp) = Ok doc.
Proof.
  unfold served_document.
  destruct (http env t u hdrs) as [cause | resp | e]; try discriminate.
  destruct ((400 <=? status_code resp) && (status_code resp <? 600))%nat
    eqn:Es; [ discriminate | ].
  destruct (html_parser env (content resp)) as [doc' | e] eqn:Hp;
    [ | discriminate ].
  intros [= <-]. exists resp. split; [ reflexivity | ].
  split; [ | exact Hp ].
  intros Hc. apply error_status_dec in Hc. congruence.
Qed.

(** X2: whether it returns or raises, [fetch_page] sends exactly one GET
    with the headers of the instance and a timeout of 10, and touches no
    file.  It logs one ["Failed to fetch ..."] entry exactly when it
    returns [None], which it does whenever the request failed at the
    transport level or was answered 4xx or 5xx; what it lets through is
    never a [RequestException]; a document it returns is the parser's
    result for the body of an answer that is not 4xx or 5xx, and comes
    with no new error. *)
Theorem fetch_page_one_request env u st w :
  exists r added,
    fetch_page env u st w =
      (r, push_errors st added, logs [EvGet u (headers st) 10] w)
    /\ files (logs [EvGet u (headers st) 10] w) = files w
    /\ (r = Ok None <-> exists cause, added = [FETCH_FAILURE u cause])
    /\ (fetch_fails (http env (now w) u (headers st)) -> r = Ok None)
    /\ (forall e, r = Raise e -> is_RequestException e = false)
    /\ (forall doc, r = Ok (Some doc) ->
          added = []
          /\ exists resp,
               http env (now w) u (headers st) = Responded resp
               /\ ~ 400 <= status_code resp < 600
               /\ html_parser env (content resp) = Ok doc).
Proof.
  destruct (fetch_page_cases env u st w)
    as (r & added & H & Hnone & Hsome & Hraise & Hdoc).
  exists r, added. split; [ exact H | ].
  split; [ reflexivity | ].
  split.
  { split; [ exact Hnone | ].
    intros (cause & Hadded).
    destruct r as [[doc |] | e]; [ | reflexivity | ];
      rewrite Hsome in Hadded by discriminate; discriminate. }
  split.
  { intros Hfail. destruct (fetch_page_fails env u st w Hfail)
      as (cause & Hrun).
    rewrite Hrun in H. now injection H as <- _. }
  split.
  { intros e ->. apply (fetch_escape_not_handled env (headers st) (now w) u).
    now apply Hraise. }
  intros doc ->. split; [ apply Hsome; discriminate | ].
  apply (served_document_parsed env (headers st) (now w) u).
  symmetry. now apply Hdoc.
Qed.

(** *** The extractor *)

(** X3: [extract_reviews] returns normally and touches neither the
    world nor anything but the error log: it returns the records of the
    containers that have all six sub-fields, in document order, and logs
    one parse failure for every other container, however many
    sub-fields that one misses; records and failures add up to the
    number of containers. *)
Theorem extract_reviews_accounts_for_every_container soup st w :
  let containers := find_all soup "div" "review-item" in
  exists rs added,
    extract_reviews soup st w = (Ok rs, push_errors st added, w)
    /\ rs = map record_of (filter well_formed containers)
    /\ added = map (fun _ => PARSE_FAILURE)
                   (filter (fun c => negb (well_formed c)) containers)
    /\ List.length rs + List.length added = List.length containers.
Proof.
  cbn zeta. do 2 eexists.
  split; [ apply extract_reviews_spec | ].
  split; [ reflexivity | ]. split; [ reflexivity | ].
  rewrite !length_map. apply filter_length.
Qed.

(** X4: every record [extract_reviews] returns has exactly the keys
    title, author, rating, date, text, helpful, in this order and once
    each, and every value is trimmed. *)
Theorem extracted_records_shape soup st w rs st' w' :
  extract_reviews soup st w = (Ok rs, st', w') ->
  Forall (fun r =>
            Dict.keys r
            = ["title"; "author"; "rating"; "date"; "text"; "helpful"]
            /\ Dict.wf r
            /\ Forall trimmed (Dict.values r)) rs.
Proof.
  rewrite extract_reviews_spec. intros [= <- _ _].
  apply Forall_forall. intros r Hr. apply in_map_iff in Hr.
  destruct Hr as (c & <- & _).
  split; [ reflexivity | ]. split; [ apply record_of_wf | ].
  unfold record_of, Dict.values. rewrite map_map. cbn [snd].
  apply Forall_forall. intros v Hv. apply in_map_iff in Hv.
  destruct Hv as (km & <- & _). apply strip_trimmed.
Qed.

Lemma extracted_records_shape_witness :
  exists rs st',
    extract_reviews Example.page Example.scraper Example.world
    = (Ok rs, st', Example.world)
    /\ List.length rs = 2
    /\ Forall (fun r =>
                 Dict.keys r
                 = ["title"; "author"; "rating"; "date"; "text"; "helpful"]
                 /\ Dict.wf r
                 /\ Forall trimmed (Dict.values r)) rs.
Proof.
  do 2 eexists. split; [ reflexivity | ]. split; [ reflexivity | ].
  exact (extracted_records_shape Example.page Example.scraper Example.world
           _ _ _ eq_refl).
Defined.

(** *** The orchestrator *)

Lemma keeps_ret {A} (a : A) : keeps_files (ret a).
Proof. intros st w. reflexivity. Qed.

Lemma keeps_print line : keeps_files (print line).
Proof. intros st w. reflexivity. Qed.

Lemma keeps_time_sleep env delay : keeps_files (time_sleep env delay).
Proof.
  intros st w.
  destruct (time_sleep_cases env delay st w) as [H | [e H]];
    now rewrite H.
Qed.

Lemma keeps_bind {A B} (m : M A) (k : A -> M B) :
  keeps_files m -> (forall a, keeps_files (k a)) -> keeps_files (bind m k).
Proof.
  intros Hm Hk st w. unfold bind. specialize (Hm st w).
  destruct (m st w) as [[[a | e] st'] w']; cbn [snd] in *.
  - now rewrite Hk.
  - exact Hm.
Qed.

Lemma keeps_fetch_page env u : keeps_files (fetch_page env u).
Proof.
  intros st w.
  destruct (fetch_page_cases env u st w) as (r & added & H & _).
  now rewrite H.
Qed.

Lemma keeps_extract_reviews soup : keeps_files (extract_reviews soup).
Proof. intros st w. now rewrite extract_reviews_spec. Qed.

Lemma keeps_scrape_loop env delay :
  forall page_urls n i acc,
    keeps_files (scrape_loop env n i page_urls delay acc).
Proof.
  induction page_urls as [| u rest IH]; intros n i acc;
    [ apply keeps_ret | ].
  cbn [scrape_loop].
  apply keeps_bind; [ apply keeps_print | intros _ ].
  apply keeps_bind; [ apply keeps_fetch_page | intros soup ].
  apply keeps_bind.
  - destruct soup as [doc |]; [ | apply keeps_ret ].
    apply keeps_bind; [ apply keeps_extract_reviews | intros rs ].
    apply keeps_bind; [ apply keeps_print | intros _ ].
    apply keeps_ret.
  - intros acc'. apply keeps_bind; [ | intros _; apply IH ].
    destruct (i <? n)%nat; [ apply keeps_time_sleep | apply keeps_ret ].
Qed.

Lemma keeps_scrape_multiple_pages env page_urls delay :
  keeps_files (scrape_multiple_pages env page_urls delay).
Proof.
  unfold scrape_multiple_pages.
  apply keeps_bind; [ apply keeps_scrape_loop | intros rs ].
  apply keeps_bind; [ | intros _; apply keeps_ret ].
  intros st w. reflexivity.
Qed.

Lemma keeps_get_statistics env : keeps_files (get_statistics env).
Proof.
  intros st w. unfold get_statistics, bind, get_self.
  destruct (reviews st); reflexivity.
Qed.

(** X5: a run of [scrape_multiple_pages] that returns stores the very
    list it returns, made of six-field records only; it keeps [base_url]
    and [headers], only appends to the error log and writes no file. *)
Theorem completed_run_stores_its_result
    env page_urls delay st w rs st' w' :
  scrape_multiple_pages env page_urls delay st w = (Ok rs, st', w') ->
  reviews st' = rs
  /\ Forall (fun r => Dict.keys r = REVIEW_FIELDS /\ Dict.wf r) rs
  /\ base_url st' = base_url st
  /\ headers st' = headers st
  /\ (exists added, errors st' = (errors st ++ added)%list)
  /\ files w' = files w.
Proof.
  intros Hrun.
  destruct (run_stores_extracted_records _ _ _ _ _ _ _ _ Hrun)
    as (Hrev & Hshape).
  split; [ exact Hrev | ]. split; [ exact Hshape | ].
  pose proof (keeps_scrape_multiple_pages env page_urls delay st w) as Hf.
  destruct (scrape_multiple_pages_frame env page_urls delay st w)
    as (added & w2 & [[e H] | [cs H]]); rewrite H in Hrun;
    [ discriminate | ].
  rewrite H in Hf. cbn [snd] in Hf.
  injection Hrun as <- <- <-.
  repeat split; try reflexivity; [ now exists added | exact Hf ].
Qed.

Lemma completed_run_stores_its_result_witness :
  exists rs st' w',
    scrape_multiple_pages Example.env [Example.page1; Example.page2] 1
      Example.scraper Example.world = (Ok rs, st', w')
    /\ reviews st' = rs
    /\ Forall (fun r => Dict.keys r = REVIEW_FIELDS /\ Dict.wf r) rs
    /\ files w' = files Example.world.
Proof.
  do 3 eexists. split; [ reflexivity | ].
  destruct (completed_run_stores_its_result Example.env
              [Example.page1; Example.page2] 1 Example.scraper
              Example.world _ _ _ eq_refl)
    as (H1 & H2 & _ & _ & _ & H6).
  split; [ exact H1 | ]. split; [ exact H2 | exact H6 ].
Defined.

(** Below zero [time.sleep] raises before it asks the operating
    system: [OverflowError] when the nanoseconds do not fit the clock,
    [ValueError] otherwise. *)
Lemma sleep_raises_negative delay :
  (delay < 0)%Q ->
  sleep_raises delay =
    Some (if Qle_bool (inject_Z (- 2 ^ 63 - 1024))
               (delay * inject_Z (10 ^ 9))
          then ValueError "sleep length must be non-negative"
          else OverflowError "timestamp too large to convert to C _PyTime_t").
Proof.
  intros Hneg. unfold sleep_raises.
  assert (Hp : Qle_bool 0 (delay * inject_Z (10 ^ 9)) = false).
  { destruct (Qle_bool 0 (delay * inject_Z (10 ^ 9))) eqn:E;
      [ | reflexivity ].
    apply Qle_bool_iff in E. exfalso.
    destruct delay as [a b]. unfold Qlt, Qle in *. cbn in *. lia. }
  assert (Hhigh : Qle_bool (delay * inject_Z (10 ^ 9))
                    (inject_Z (2 ^ 63 + 1024)) = true).
  { apply Qle_bool_iff.
    destruct delay as [a b]. unfold Qlt, Qle in *. cbn in *. lia. }
  rewrite Hhigh, Hp.
  destruct (Qle_bool (inject_Z (- 2 ^ 63 - 1024))
              (delay * inject_Z (10 ^ 9))); reflexivity.
Qed.

Lemma time_sleep_raises env delay e st w :
  sleep_raises delay = Some e ->
  time_sleep env delay st w = (Raise e, st, w).
Proof. intros H. unfold time_sleep. now rewrite H. Qed.

(** X6: with a delay below zero and at least two URLs, when the fetch
    of the first URL lets no exception through, the run raises the
    exception of [time.sleep] right after the first page ([ValueError],
    or [OverflowError] for a delay too far below zero for the clock):
    one request was made, no pause happened, the stored reviews are
    those from before the call (the reviews of the first page are
    lost), and the errors of the first page stay in the log. *)
Theorem negative_delay_stops_after_first_page
    env u1 u2 rest delay st w :
  (delay < 0)%Q ->
  (forall t, fetch_escape env (headers st) t u1 = None) ->
  exists added evs,
    scrape_multiple_pages env (u1 :: u2 :: rest) delay st w =
      (Raise (if Qle_bool (inject_Z (- 2 ^ 63 - 1024))
                   (delay * inject_Z (10 ^ 9))
              then ValueError "sleep length must be non-negative"
              else OverflowError
                     "timestamp too large to convert to C _PyTime_t"),
       push_errors st added, logs evs w)
    /\ reviews (push_errors st added) = reviews st
    /\ filter is_get_or_sleep evs = [EvGet u1 (headers st) 10].
Proof.
  intros Hneg Hret. unfold scrape_multiple_pages.
  cbn [scrape_loop List.length].
  change (1 <? S (S (List.length rest)))%nat with true. cbv iota.
  match goal with
  | |- context [print ?line] => set (line1 := line)
  end.
  destruct (fetch_page_returns env u1 st (logs [EvPrint line1] w))
    as (soup & added & Hf & _); [ apply Hret | ].
  destruct (page_block_run soup 1 [] (push_errors st added)
              (log (EvGet u1 (headers st) 10) (logs [EvPrint line1] w)))
    as (acc1 & added1 & evs1 & Hb & Hevs1 & _).
  exists (added ++ added1)%list. eexists.
  split; [ | split ].
  - erewrite bind_raise; [ reflexivity | ].
    erewrite bind_run by apply print_run.
    erewrite bind_run by exact Hf.
    erewrite bind_run by exact Hb.
    erewrite bind_raise;
      [ | apply time_sleep_raises, sleep_raises_negative; exact Hneg ].
    rewrite push_errors_app, !log_logs, !logs_logs. reflexivity.
  - reflexivity.
  - rewrite !filter_app, Hevs1. reflexivity.
Qed.

Lemma negative_delay_stops_after_first_page_witness :
  (-1 < 0)%Q
  /\ exists added evs,
       scrape_multiple_pages Example.env
         [Example.page1; Example.page2] (-1) Example.scraper Example.world
       = (Raise (ValueError "sleep length must be non-negative"),
          push_errors Example.scraper added, logs evs Example.world)
       /\ reviews (push_errors Example.scraper added) = []
       /\ filter is_get_or_sleep evs
          = [EvGet Example.page1 (headers Example.scraper) 10].
Proof.
  assert (H : (-1 < 0)%Q) by reflexivity.
  split; [ exact H | ].
  exact (negative_delay_stops_after_first_page Example.env Example.page1
           Example.page2 [] (-1) Example.scraper Example.world H
           (fun t => eq_refl)).
Defined.

(** X7: over no URL, or over a single URL whose fetch lets no exception
    through, the loop never reaches [time.sleep], so the run returns
    normally for every delay, a negative one included, and stores what
    it returns. *)
Theorem short_runs_never_pause env page_urls delay st w :
  List.length page_urls <= 1 ->
  fetches_return env (headers st) page_urls ->
  exists rs added evs,
    scrape_multiple_pages env page_urls delay st w =
      (Ok rs, with_reviews (push_errors st added) rs, logs evs w)
    /\ filter is_sleep evs = [].
Proof.
  intros Hlen Hret. destruct page_urls as [| u [| u2 rest]];
    [ | | cbn in Hlen; lia ].
  - exists [], [], []. rewrite push_errors_nil, logs_nil.
    split; reflexivity.
  - unfold scrape_multiple_pages. cbn [scrape_loop List.length].
    change (1 <? 1)%nat with false. cbv iota.
    match goal with
    | |- context [print ?line] => set (line1 := line)
    end.
    destruct (fetch_page_returns env u st (logs [EvPrint line1] w))
      as (soup & added & Hf & _); [ apply Hret; now left | ].
    destruct (page_block_run soup 1 [] (push_errors st added)
                (log (EvGet u (headers st) 10) (logs [EvPrint line1] w)))
      as (acc1 & added1 & evs1 & Hb & Hevs1 & _).
    exists acc1, (added ++ added1)%list. eexists.
    split.
    + erewrite bind_run; [ | erewrite bind_run by apply print_run;
                             erewrite bind_run by exact Hf;
                             erewrite bind_run by exact Hb;
                             erewrite bind_run by reflexivity;
                             reflexivity ].
      erewrite bind_run by reflexivity. unfold ret.
      rewrite push_errors_app, !log_logs, !logs_logs. reflexivity.
    + rewrite !filter_app, <- (filter_sleep_skeleton evs1), Hevs1.
      reflexivity.
Qed.

Lemma short_runs_never_pause_witness :
  exists rs added evs,
    scrape_multiple_pages Example.env [Example.page1] (-5)
      Example.scraper Example.world =
      (Ok rs, with_reviews (push_errors Example.scraper added) rs,
       logs evs Example.world)
    /\ filter is_sleep evs = [].
Proof.
  apply (short_runs_never_pause Example.env [Example.page1] (-5)
           Example.scraper Example.world).
  - cbn. lia.
  - intros t u [<- | []]. reflexivity.
Defined.

(** X8: no sequence of method calls changes [base_url] or [headers]:
    the configuration chosen at construction holds for the lifetime of
    the instance. *)
Theorem configuration_is_never_changed env cs : forall st w,
  base_url (fst (perform_all env cs st w)) = base_url st
  /\ headers (fst (perform_all env cs st w)) = headers st.
Proof.
  induction cs as [| c rest IH]; intros st w; [ split; reflexivity | ].
  cbn [perform_all].
  destruct (perform_frame env c st w) as (added & rs & H & _).
  destruct (perform env c st w) as [st1 w1]. cbn [fst] in H. subst st1.
  destruct (IH (with_reviews (push_errors st added) rs) w1) as (Hb & Hh).
  split; [ now rewrite Hb | now rewrite Hh ].
Qed.

(** X9: only the two exporters write files: [fetch_page],
    [extract_reviews], [scrape_multiple_pages] and [get_statistics]
    leave every file as it is, whatever they return or raise. *)
Theorem only_exporters_write_files env c st w :
  is_export c = false ->
  files (snd (perform env c st w)) = files w.
Proof.
  destruct c as [u | soup | page_urls delay | f | f |];
    cbn [is_export perform]; intros H; try discriminate H;
    unfold after; cbn [snd].
  - apply keeps_fetch_page.
  - apply keeps_extract_reviews.
  - apply keeps_scrape_multiple_pages.
  - apply keeps_get_statistics.
Qed.

Lemma only_exporters_write_files_witness :
  files (snd (perform Example.env
                (CallScrapeMultiplePages [Example.page1; Example.page2] (-1))
                scraped scraped_world))
  = files scraped_world.
Proof.
  exact (only_exporters_write_files Example.env
           (CallScrapeMultiplePages [Example.page1; Example.page2] (-1))
           scraped scraped_world eq_refl).
Defined.

(** *** The exporters *)

(** X10: when the stored reviews are not empty but the file cannot be
    opened, each exporter returns [False], appends exactly one entry
    ["Failed to export CSV: {cause}"] (or [JSON]) to the error log,
    prints nothing and writes no file. *)
Theorem exporters_log_open_failure env filename st w cause :
  reviews st <> [] ->
  open_w env (now w) filename = Some cause ->
  export_to_csv env filename st w =
    (Ok false, push_errors st ["Failed to export CSV: " ++ cause],
     logs [EvOpen filename] w)
  /\ export_to_json env filename st w =
       (Ok false, push_errors st ["Failed to export JSON: " ++ cause],
        logs [EvOpen filename] w).
Proof.
  intros Hrev Hopen.
  unfold export_to_csv, export_to_json, get_self, bind at 1 6.
  destruct (reviews st) as [| first rest]; [ congruence | ].
  unfold try_except, with_open_w, bind. rewrite Hopen.
  split; reflexivity.
Qed.

Lemma exporters_log_open_failure_witness :
  export_to_csv Example.env "" scraped scraped_world =
    (Ok false,
     push_errors scraped
       ["Failed to export CSV: [Errno 2] No such file or directory: ''"],
     logs [EvOpen ""] scraped_world)
  /\ export_to_json Example.env "" scraped scraped_world =
       (Ok false,
        push_errors scraped
          ["Failed to export JSON: [Errno 2] No such file or directory: ''"],
        logs [EvOpen ""] scraped_world).
Proof.
  exact (exporters_log_open_failure Example.env "" scraped scraped_world
           "[Errno 2] No such file or directory: ''"
           scraped_not_empty eq_refl).
Defined.





Lemma filter_none_inv {A} (f : A -> bool) l :
  filter f l = [] -> forall x, In x l -> f x = false.
Proof.
  induction l as [| a l IH]; intros H x Hx; [ destruct Hx | ].
  cbn in H. destruct (f a) eqn:E; [ discriminate | ].
  destruct Hx as [<- | Hx]; [ exact E | now apply IH ].
Qed.

Lemma dict_to_list_ok_within repr fieldnames r fields :
  Csv.dict_to_list repr fieldnames r = Ok fields ->
  incl (Dict.keys r) fieldnames.
Proof.
  unfold Csv.dict_to_list.
  destruct (filter _ (Dict.keys r)) eqn:E; [ | discriminate ].
  intros _ k Hk. pose proof (filter_none_inv _ _ E k Hk) as H.
  apply negb_false_iff, existsb_exists in H.
  destruct H as (k' & Hin & Heq). apply String.eqb_eq in Heq. now subst.
Qed.

Lemma writerows_ok_within repr fieldnames rows out :
  Csv.writerows repr fieldnames rows = (Ok tt, out) ->
  Forall (fun r => incl (Dict.keys r) fieldnames) rows.
Proof.
  revert out. induction rows as [| r rest IH]; intros out H;
    [ constructor | ].
  cbn [Csv.writerows] in H.
  destruct (Csv.dict_to_list repr fieldnames r) as [fields | e] eqn:E;
    [ | discriminate ].
  destruct (Csv.writerows repr fieldnames rest) as [[[] | e] out'];
    [ | discriminate ].
  constructor; [ now apply (dict_to_list_ok_within repr _ _ fields) | ].
  now apply (IH out').
Qed.

(** X12: [export_to_json] never raises; when it returns [True] there
    was a stored review and the file was opened; whatever it returns,
    the stored reviews are as before, and on [True] the whole instance
    is unchanged. *)
Theorem export_to_json_true_only_after_writing env filename st w :
  exists b st' w',
    export_to_json env filename st w = (Ok b, st', w')
    /\ (b = true ->
        reviews st <> [] /\ open_w env (now w) filename = None)
    /\ reviews st' = reviews st
    /\ (b = true -> st' = st).
Proof.
  unfold export_to_json. erewrite bind_run by reflexivity. cbn beta.
  destruct (reviews st) as [| first rest] eqn:Hrev.
  - exists false, st. eexists. split; [ reflexivity | ].
    split; [ discriminate | split; [ exact Hrev | discriminate ] ].
  - unfold try_except, with_open_w, bind.
    destruct (open_w env (now w) filename) as [cause |] eqn:Hopen.
    + exists false. do 2 eexists. split; [ reflexivity | ].
      split; [ discriminate | split; [ exact Hrev | discriminate ] ].
    + exists true, st. eexists. split; [ reflexivity | ].
      split; [ | split; [ exact Hrev | reflexivity ] ].
      intros _; split; [ discriminate | reflexivity ].
Qed.

(** X13: [export_to_csv] never raises; when it returns [True] there was
    a stored review, every stored record's keys are among the first
    record's, and the file was opened; whatever it returns, the stored
    reviews are as before, and on [True] the whole instance is
    unchanged. *)
Theorem export_to_csv_true_only_after_writing env filename st w :
  exists b st' w',
    export_to_csv env filename st w = (Ok b, st', w')
    /\ (b = true ->
        exists first rest,
          reviews st = first :: rest
          /\ fits_header first (reviews st)
          /\ open_w env (now w) filename = None)
    /\ reviews st' = reviews st
    /\ (b = true -> st' = st).
Proof.
  unfold export_to_csv. erewrite bind_run by reflexivity. cbn beta.
  destruct (reviews st) as [| first rest] eqn:Hrev.
  - exists false, st. eexists. split; [ reflexivity | ].
    split; [ discriminate | split; [ exact Hrev | discriminate ] ].
  - unfold try_except, with_open_w, csv_body, bind.
    destruct (open_w env (now w) filename) as [cause |] eqn:Hopen.
    + exists false. do 2 eexists. split; [ reflexivity | ].
      split; [ discriminate | split; [ exact Hrev | discriminate ] ].
    + destruct (Csv.writerows (repr_fields env) (Dict.keys first)
                  (first :: rest)) as [[[] | e] out] eqn:Hrows.
      * exists true, st. eexists. split; [ reflexivity | ].
        split; [ | split; [ exact Hrev | reflexivity ] ].
        intros _. exists first, rest. split; [ reflexivity | ].
        split; [ | reflexivity ].
        now apply (writerows_ok_within (repr_fields env) _ _ out).
      * exists false. do 2 eexists. split; [ reflexivity | ].
        split; [ discriminate | split; [ exact Hrev | discriminate ] ].
Qed.



(** *** Runs followed by exports and statistics *)




(** X16: [get_statistics] never changes the instance and never raises.
    Its result lacks the key [total_reviews] exactly when no review is
    stored; otherwise it holds, in this order, the number of stored
    reviews (at least 1), the clock's timestamp, and the length of the
    whole error log. *)
Theorem get_statistics_keys env st w :
  exists stats w',
    get_statistics env st w = (Ok stats, st, w')
    /\ (Dict.get stats "total_reviews" = None <-> reviews st = [])
    /\ (reviews st = [] -> stats = [])
    /\ (reviews st <> [] ->
        stats = statistics_of env st (now w)
        /\ 1 <= List.length (reviews st)
        /\ w' = logs [EvNow] w).
Proof.
  unfold get_statistics. erewrite bind_run by reflexivity. cbn beta.
  destruct (reviews st) as [| first rest] eqn:Hrev.
  - exists [], w. split; [ reflexivity | ].
    split; [ split; reflexivity | ].
    split; [ reflexivity | congruence ].
  - do 2 eexists. split; [ reflexivity | ].
    split; [ split; discriminate | ].
    split; [ discriminate | ].
    intros _. unfold statistics_of. rewrite Hrev.
    split; [ reflexivity | ]. split; [ cbn; lia | reflexivity ].
Qed.

(** *** The script [example.py] *)

Lemma scrape_multiple_pages_returns env page_urls delay st w :
  pauses env delay ->
  fetches_return env (headers st) page_urls ->
  exists rs st' w',
    scrape_multiple_pages env page_urls delay st w = (Ok rs, st', w').
Proof.
  intros Hd Hret.
  destruct (scrape_loop_returns env delay Hd page_urls
              (List.length page_urls) 1 [] st w Hret)
    as (acc & st1 & w1 & Hrun).
  unfold scrape_multiple_pages.
  erewrite bind_run by exact Hrun.
  erewrite bind_run by reflexivity.
  do 3 eexists. reflexivity.
Qed.

Lemma get_statistics_run env st w :
  reviews st <> [] ->
  get_statistics env st w
  = (Ok (statistics_of env st (now w)), st, logs [EvNow] w).
Proof.
  intros Hne. unfold get_statistics, statistics_of.
  erewrite bind_run by reflexivity. cbn beta.
  destruct (reviews st); [ congruence | reflexivity ].
Qed.

Lemma get_statistics_empty env st w :
  reviews st = [] -> get_statistics env st w = (Ok [], st, w).
Proof.
  intros H. unfold get_statistics. erewrite bind_run by reflexivity.
  cbn beta. now rewrite H.
Qed.

Lemma export_to_csv_total env filename st w :
  exists b added w',
    export_to_csv env filename st w = (Ok b, push_errors st added, w')
    /\ (reviews st = [] -> files w' = files w).
Proof.
  unfold export_to_csv. erewrite bind_run by reflexivity. cbn beta.
  destruct (reviews st) as [| first rest] eqn:Hrev.
  - exists false, []. eexists. rewrite push_errors_nil.
    split; reflexivity.
  - unfold try_except, with_open_w, csv_body, bind.
    destruct (open_w env (now w) filename) as [cause |].
    + do 3 eexists. split; [ reflexivity | discriminate ].
    + destruct (Csv.writerows (repr_fields env) (Dict.keys first)
                  (first :: rest)) as [[[] | e] out].
      * exists true, []. eexists. rewrite push_errors_nil.
        split; [ reflexivity | discriminate ].
      * do 3 eexists. split; [ reflexivity | discriminate ].
Qed.

Lemma export_to_json_total env filename st w :
  exists b added w',
    export_to_json env filename st w = (Ok b, push_errors st added, w')
    /\ (reviews st = [] -> files w' = files w).
Proof.
  unfold export_to_json. erewrite bind_run by reflexivity. cbn beta.
  destruct (reviews st) as [| first rest] eqn:Hrev.
  - exists false, []. eexists. rewrite push_errors_nil.
    split; reflexivity.
  - unfold try_except, with_open_w, bind.
    destruct (open_w env (now w) filename) as [cause |].
    + do 3 eexists. split; [ reflexivity | discriminate ].
    + exists true, []. eexists. rewrite push_errors_nil.
      split; [ reflexivity | discriminate ].
Qed.


(** X17: the script stands or falls with its run over the three pages,
    paused by 2.0 seconds.  An exception the run lets through ends the
    script, no file written.  After a run that returns, both exports
    get through (the exporters never raise); when the run found no
    review the script then stops with [KeyError: 'total_reviews'],
    because the statistics are empty, having written no file; when the
    run found a review it runs to its end.  The run returns whenever no
    fetch of the three pages lets an exception through and the operating
    system accepts the pause. *)
Theorem example_script_needs_a_review env w :
  (forall e st1 w1,
     scrape_multiple_pages env pages_to_scrape 2
       (init "https://example-ecommerce.com" None)
       (logs [EvPrint "Starting web scraping..."] w) = (Raise e, st1, w1) ->
     example_main env w = (Crashed (Uncaught e), st1, w1)
     /\ files w1 = files w)
  /\ (forall rs st1 w1,
        scrape_multiple_pages env pages_to_scrape 2
          (init "https://example-ecommerce.com" None)
          (logs [EvPrint "Starting web scraping..."] w) = (Ok rs, st1, w1) ->
        (rs = [] ->
         exists st' w',
           example_main env w = (Crashed (KeyError "total_reviews"), st', w')
           /\ files w' = files w)
        /\ (rs <> [] ->
            exists st' w', example_main env w = (Finished, st', w')))
  /\ (fetches_return env
        (headers (init "https://example-ecommerce.com" None))
        pages_to_scrape ->
      (forall t, os_sleep env t 2 = None) ->
      exists rs st1 w1,
        scrape_multiple_pages env pages_to_scrape 2
          (init "https://example-ecommerce.com" None)
          (logs [EvPrint "Starting web scraping..."] w) = (Ok rs, st1, w1)).
Proof.
  pose proof (keeps_scrape_multiple_pages env pages_to_scrape 2
                (init "https://example-ecommerce.com" None)
                (logs [EvPrint "Starting web scraping..."] w)) as Hkeep.
  split; [ | split ].
  - intros e st1 w1 Hrun. rewrite Hrun in Hkeep. cbn [snd] in Hkeep.
    split; [ | exact Hkeep ].
    unfold example_main, example_prelude.
    erewrite bind_run by apply print_run.
    erewrite bind_raise by exact Hrun. reflexivity.
  - intros rs st1 w1 Hrun. rewrite Hrun in Hkeep. cbn [snd] in Hkeep.
    destruct (run_stores_extracted_records _ _ _ _ _ _ _ _ Hrun)
      as (Hrev & _).
    set (line := after_newline
                   ("Scraped " ++ Text.str_of_nat (List.length rs)
                    ++ " reviews")).
    destruct (export_to_csv_total env "reviews_output.csv" st1
                (logs [EvPrint line] w1)) as (b1 & a1 & w2 & Hcsv & Hf2).
    destruct (export_to_json_total env "reviews_output.json"
                (push_errors st1 a1) w2) as (b2 & a2 & w3 & Hjson & Hf3).
    assert (Hpre : forall stats w4,
      get_statistics env (push_errors (push_errors st1 a1) a2) w3
        = (Ok stats, push_errors (push_errors st1 a1) a2, w4) ->
      example_prelude env (init "https://example-ecommerce.com" None) w
        = (Ok stats, push_errors (push_errors st1 a1) a2,
           logs [EvPrint (after_newline "Statistics:")] w4)).
    { intros stats w4 Hstats. unfold example_prelude.
      erewrite bind_run by apply print_run.
      erewrite bind_run by exact Hrun.
      erewrite bind_run by apply print_run.
      erewrite bind_run by exact Hcsv.
      erewrite bind_run by exact Hjson.
      erewrite bind_run by exact Hstats.
      erewrite bind_run by apply print_run. reflexivity. }
    split.
    + intros Hnil. rewrite Hnil in Hrev. unfold example_main.
      rewrite (Hpre [] w3) by (apply get_statistics_empty; exact Hrev).
      do 2 eexists. split; [ reflexivity | ].
      cbn [files logs]. rewrite Hf3, Hf2 by exact Hrev. exact Hkeep.
    + intros Hne.
      assert (Hne1 : reviews (push_errors (push_errors st1 a1) a2) <> [])
        by (cbn [reviews push_errors]; now rewrite Hrev).
      unfold example_main.
      rewrite (Hpre _ _ (get_statistics_run env _ w3 Hne1)).
      unfold statistics_of. do 2 eexists. reflexivity.
  - intros Hret Hos.
    apply scrape_multiple_pages_returns; [ | exact Hret ].
    split; [ reflexivity | exact Hos ].
Qed.

Lemma example_script_needs_a_review_witness :
  (exists st' w',
     example_main offline Example.world
     = (Crashed (KeyError "total_reviews"), st', w')
     /\ files w' = files Example.world)
  /\ exists st' w',
       example_main rejecting Example.world
       = (Crashed
            (Uncaught (ParserRejectedMarkup PARSER_REJECTION)),
          st', w')
       /\ files w' = files Example.world.
Proof.
  split.
  - destruct (example_script_needs_a_review offline Example.world)
      as (_ & Hok & _).
    refine (proj1 (Hok [] _ _ _) eq_refl). reflexivity.
  - destruct (example_script_needs_a_review rejecting Example.world)
      as (Hraise & _ & _).
    do 2 eexists. apply Hraise. reflexivity.
Defined.




(** *** A run, page by page *)

(** X19: a run that returns accounts for every URL in order: there is,
    for each URL, what its fetch led to (no document after a failure,
    else the parser's result for the body of an answer that is not 4xx
    or 5xx), such that the returned and stored list is the
    concatenation of the records of the documents' well-formed
    containers, and the error log gains, page after page, either the
    fetch failure of the URL or one parse failure per malformed
    container of its document. *)
Theorem run_accounts_for_every_page env page_urls delay st w rs st' w' :
  scrape_multiple_pages env page_urls delay st w = (Ok rs, st', w') ->
  exists pages,
    List.length pages = List.length page_urls
    /\ Forall2 (fun u p => fetched env (headers st) u (fst p))
               page_urls pages
    /\ rs = flat_map (fun p => page_records (fst p)) pages
    /\ reviews st' = rs
    /\ errors st' = (errors st ++ run_errors page_urls pages)%list.
Proof.
  intros Hrun.
  destruct (scrape_multiple_pages_trace env page_urls delay st w)
    as (r & st1 & evs & H & Hok).
  rewrite H in Hrun. injection Hrun as -> <- <-.
  destruct (Hok rs eq_refl)
    as (_ & pages & Hl & Hrs & Hrev & Herr & Hall).
  exists pages. split; [ exact Hl | ]. split; [ exact Hall | ].
  split; [ exact Hrs | ]. split; [ exact Hrev | exact Herr ].
Qed.

Lemma run_accounts_for_every_page_witness :
  exists pages rs st' w',
    scrape_multiple_pages Example.env [Example.page1; Example.page2] 1
      Example.scraper Example.world = (Ok rs, st', w')
    /\ List.length pages = 2
    /\ rs = flat_map (fun p => page_records (fst p)) pages
    /\ errors st' = run_errors [Example.page1; Example.page2] pages.
Proof.
  assert (Hrun :
    scrape_multiple_pages Example.env [Example.page1; Example.page2] 1
      Example.scraper Example.world
    = (Ok [record_of Example.complete; record_of Example.complete],
       snd (fst (scrape_multiple_pages Example.env
                   [Example.page1; Example.page2] 1
                   Example.scraper Example.world)),
       snd (scrape_multiple_pages Example.env
              [Example.page1; Example.page2] 1
              Example.scraper Example.world))) by reflexivity.
  destruct (run_accounts_for_every_page Example.env
              [Example.page1; Example.page2] 1 Example.scraper
              Example.world _ _ _ Hrun)
    as (pages & Hl & _ & Hrs & _ & Herr).
  exists pages. do 3 eexists.
  split; [ exact Hrun | ]. split; [ exact Hl | ].
  split; [ exact Hrs | exact Herr ].
Defined.

(** X20: which headers go out.  A scraper built without headers, or
    with an empty mapping, sends the default [User-Agent] entry and
    nothing else; a non-empty mapping is sent as given, with no
    [User-Agent] added to it. *)
Theorem requests_carry_the_constructor_headers env base u w :
  snd (fetch_page env u (init base None) w)
    = logs [EvGet u default_headers 10] w
  /\ snd (fetch_page env u (init base (Some [])) w)
     = logs [EvGet u default_headers 10] w
  /\ forall hdrs, hdrs <> [] ->
       snd (fetch_page env u (init base (Some hdrs)) w)
       = logs [EvGet u hdrs 10] w.
Proof.
  assert (H : forall st, snd (fetch_page env u st w)
                         = logs [EvGet u (headers st) 10] w).
  { intros st.
    destruct (fetch_page_cases env u st w) as (r & added & Hf & _).
    now rewrite Hf. }
  split; [ apply H | ]. split; [ apply H | ].
  intros hdrs Hne. rewrite H.
  destruct hdrs as [| h t]; [ congruence | reflexivity ].
Qed.
